(** * Kiro gateway: translation of a Kiro event stream to the Anthropic
      Messages format

    Shallow embedding of [src/kiro_gateway/anthropic_streaming.py]:
    [stream_kiro_to_anthropic] (the incremental emitter, an async generator)
    and [collect_anthropic_response] (the batch collector).

    Modelling decisions.
    - A Python dict with a fixed set of optional keys is a record of
      [option] fields; [d.get(k, default)] is [get_or default (k d)].
    - The async generator is the list of the frames it yields, paired with
      how it ended: normally, or by re-raising an exception (identified by
      [str(e)]).
    - An SSE frame [event: <name>\ndata: <json>\n\n] is kept as the
      structured payload that [json.dumps] receives; the event name is the
      payload's ["type"] field in every frame the source builds.
    - The tool identifier [f"toolu_{int(time.time() * 1000)}_{k}"] is kept
      as its two components.
    - [debug_logger] is an observer only and is left out.
    - [AwsEventStreamParser], [parse_bracket_tool_calls], [json.loads],
      [time.time] and [generate_completion_id] live outside this file of
      the repository; they are parameters of the development. *)

From Stdlib Require Import List String Ascii ZArith Bool Lia Arith Permutation.
Import ListNotations.
Local Open Scope string_scope.
Local Open Scope list_scope.

Set Implicit Arguments.
Set Warnings "-register-all".

(* ================================================================== *)
(** ** Python values *)

(** JSON-serialisable Python values, as far as the translator touches
    them. *)
Inductive json : Type :=
| JNull
| JBool (b : bool)
| JInt (z : Z)
| JStr (s : string)
| JList (xs : list json)
| JDict (kvs : list (string * json)).

(** How [json.loads(s)] ends: with a value; with [json.JSONDecodeError]
    (a [ValueError]); or with another exception, such as the
    [RecursionError] of a text nested too deeply, given by its [str]. *)
Inductive loads_result : Type :=
| Loaded (value : json)
| DecodeError
| LoadsRaised (message : string).

(** [d.get(k, default)] on an optional field. *)
Definition get_or {A : Type} (default : A) (field : option A) : A :=
  match field with
  | Some v => v
  | None => default
  end.

(** Truth value of a [str]: [if content:] and [if not accumulated_text:]. *)
Definition str_truthy (s : string) : bool :=
  match s with
  | EmptyString => false
  | String _ _ => true
  end.

(** Truth value of a [list] or [bytes]. *)
Definition list_truthy {A : Type} (l : list A) : bool :=
  match l with
  | [] => false
  | _ :: _ => true
  end.

(* ================================================================== *)
(** ** Records produced by the frame decoder *)

(** [{"inputTokens": .., "outputTokens": ..}] *)
Record usage_info : Type := mk_usage_info {
  inputTokens : option Z;
  outputTokens : option Z
}.

(** [{"usage": {..}}] *)
Record metadata : Type := mk_metadata {
  usage : option usage_info
}.

(** One element of the list returned by [parser.feed(chunk)], by its
    ["type"] key. *)
Inductive event : Type :=
| Content (data : option string)      (* {"type": "content", "data": ..} *)
| Metadata (md : option metadata)     (* {"type": "metadata", "metadata": ..} *)
| OtherEvent (ty : option string).    (* any other or missing "type" *)

(** One element of [parse_bracket_tool_calls(content)]: read through
    [tc.get("name", "")] and [tc.get("arguments", {})]. *)
Record bracket_call : Type := mk_bracket_call {
  bc_name : option string;
  bc_arguments : option json
}.

(** One element of [parser.get_tool_calls()], in OpenAI format:
    [{"function": {"name": .., "arguments": ..}}]. *)
Record function_call : Type := mk_function_call {
  fn_name : option string;
  fn_arguments : option json
}.

Record tool_call : Type := mk_tool_call {
  tc_function : option function_call
}.

(* ================================================================== *)
(** ** Target schema *)

(** [f"toolu_{int(time.time() * 1000)}_{k}"] *)
Record tool_use_id : Type := mk_tool_use_id {
  id_millis : Z;
  id_suffix : nat
}.

(** A content block of the Anthropic message. *)
Inductive content_block : Type :=
| TextBlock (text : string)
| ToolUse (id : tool_use_id) (name : string) (input : json).

(** A block without the clock reading of its identifier: what two runs
    of the translator on the same input have in common. *)
Definition without_millis (b : content_block) : content_block :=
  match b with
  | ToolUse id name input => ToolUse (mk_tool_use_id 0 (id_suffix id)) name input
  | TextBlock text => TextBlock text
  end.

Definition is_tool_use (b : content_block) : bool :=
  match b with
  | ToolUse _ _ _ => true
  | TextBlock _ => false
  end.

(** The frames of the streaming protocol. [MessageStart] always carries an
    empty content list, a null stop reason and zero usage. *)
Inductive sse : Type :=
| MessageStart (id model : string)
| ContentBlockStart (index : nat) (block : content_block)
| ContentBlockDelta (index : nat) (text : string)
| ContentBlockStop (index : nat)
| MessageDelta (stop_reason : string) (output_tokens : Z)
| MessageStop
| ErrorEvent (message : string).

(** The object returned by the collector. *)
Record anthropic_message : Type := mk_anthropic_message {
  resp_id : string;
  resp_model : string;
  resp_content : list content_block;
  resp_stop_reason : string;
  resp_input_tokens : Z;
  resp_output_tokens : Z
}.

(** How a translation ends. *)
Inductive outcome : Type :=
| Completed
| Raised (message : string).

(* ================================================================== *)
(** ** The transport and the frame decoder *)

(** What [response.aiter_bytes()] delivers at each iteration: a chunk, or a
    failure of the read. The end of the list is the end of the body. *)
Inductive transport_item : Type :=
| Bytes (chunk : list Byte.byte)
| TransportError (message : string).

(** Result of one [parser.feed(chunk)]. *)
Inductive feed_result (P : Type) : Type :=
| Fed (parser : P) (events : list event)
| FeedRaised (message : string).

Arguments Fed {P} parser events.
Arguments FeedRaised {P} message.

(** The interface of [AwsEventStreamParser] that the translator uses. *)
Class FrameDecoder (P : Type) : Type := {
  new_parser : P;
  feed : P -> list Byte.byte -> feed_result P;
  get_tool_calls : P -> list tool_call
}.

(* ================================================================== *)
(** ** Stand-ins for concrete runs *)

(** A decoder that replays a script: the n-th non-empty chunk decodes to
    the n-th entry, and [get_tool_calls] returns the scripted list. *)
Inductive scripted_feed : Type :=
| Yields (events : list event)
| Raises (message : string).

Record script : Type := mk_script {
  script_feeds : list scripted_feed;
  script_tool_calls : list tool_call
}.

Definition script_feed (s : script) (chunk : list Byte.byte)
    : feed_result script :=
  match script_feeds s with
  | [] => Fed s []
  | Yields events :: rest => Fed (mk_script rest (script_tool_calls s)) events
  | Raises message :: _ => FeedRaised message
  end.

Definition scripted_decoder (s : script) : FrameDecoder script :=
  {| new_parser := s; feed := script_feed; get_tool_calls := script_tool_calls |}.

(** An extractor that knows one marker. *)
Definition sample_marker : string := "[tool_call:search{}]".

Definition sample_extractor (text : string) : list bracket_call :=
  if String.eqb text sample_marker
  then [mk_bracket_call (Some "search") (Some (JDict []))]
  else [].

(** A text of 2000 opening brackets. *)
Definition deep_text : string :=
  string_of_list_ascii (repeat "["%char 2000).

(** A [json.loads] that accepts the empty object, exceeds the recursion
    limit on [deep_text] and rejects every other text. *)
Definition sample_json_loads (s : string) : loads_result :=
  if String.eqb s "{}" then Loaded (JDict [])
  else if String.eqb s deep_text
       then LoadsRaised "maximum recursion depth exceeded"
       else DecodeError.

Definition sample_time_ms (k : nat) : Z := (1700000000000 + Z.of_nat k)%Z.

(** One non-empty chunk. *)
Definition one_chunk : transport_item := Bytes [Byte.x00].

(** Sample bodies and the scripts that decode them. *)
Definition usage_record (i o : option Z) : event :=
  Metadata (Some (mk_metadata (Some (mk_usage_info i o)))).

Definition hello_script : script :=
  mk_script
    [Yields [Content (Some "Hello "); Content (Some "world")];
     Yields [usage_record (Some 5%Z) (Some 2%Z)]]
    [].

Definition hello_body : list transport_item :=
  [one_chunk; Bytes []; one_chunk].

Definition malformed_tool_call : tool_call :=
  mk_tool_call (Some (mk_function_call (Some "lookup") (Some (JStr "{oops")))).

Definition mixed_script : script :=
  mk_script
    [Yields [Content (Some "Hi"); Content (Some sample_marker);
             usage_record (Some 7%Z) None]]
    [malformed_tool_call].

Definition text_tool_script : script :=
  mk_script [Yields [Content (Some "Hi"); Content (Some sample_marker)]] [].

Definition failing_script : script :=
  mk_script [Yields [Content (Some "Hi")]; Raises "boom"] [].

Definition quiet_script : script :=
  mk_script [Yields [Content None; usage_record (Some 3%Z) (Some 7%Z)]] [].

Definition metadata_only_script : script :=
  mk_script [Yields [usage_record (Some 3%Z) (Some 7%Z)]] [].

Definition well_formed_tool_call : tool_call :=
  mk_tool_call (Some (mk_function_call (Some "lookup") (Some (JStr "{}")))).

Definition mapping_tool_call : tool_call :=
  mk_tool_call
    (Some (mk_function_call (Some "fetch")
             (Some (JDict [("url", JStr "https://example.org")])))).


Definition deep_tool_call : tool_call :=
  mk_tool_call
    (Some (mk_function_call (Some "crawl") (Some (JStr deep_text)))).

Definition deep_script : script :=
  mk_script [Yields [Content (Some "Hi")]]
    [well_formed_tool_call; deep_tool_call; mapping_tool_call].

(** The clock of a second run, five seconds later. *)
Definition later_time_ms (k : nat) : Z := (1700000005000 + Z.of_nat k)%Z.

Definition two_part_script : script :=
  mk_script [Yields [Content (Some "Hi")]; Yields [Content (Some " there")]]
    [].

Definition drained : script -> script :=
  fun s => mk_script [] (script_tool_calls s).

(* ================================================================== *)
(** ** The translator *)

Section Translator.

Context {P : Type} {decoder : FrameDecoder P}.

(** [kiro_gateway.parsers.parse_bracket_tool_calls] *)
Variable parse_bracket_tool_calls : string -> list bracket_call.

(** [json.loads] on a [str]. *)
Variable json_loads : string -> loads_result.

(** [int(time.time() * 1000)] as read when the tool identifier with
    suffix [k] is built. *)
Variable time_ms : nat -> Z.

(** [kiro_gateway.utils.generate_completion_id()] *)
Variable generate_completion_id : string.

Set Default Proof Using "Type".

(** [if not request_id: request_id = f"msg_{generate_completion_id()}"] *)
Definition effective_request_id (request_id : option string) : string :=
  match request_id with
  | Some s => if str_truthy s then s else "msg_" ++ generate_completion_id
  | None => "msg_" ++ generate_completion_id
  end.

(** *** [stream_kiro_to_anthropic] *)

(** The local variables of the generator that live across events. *)
Record stream_state : Type := mk_stream_state {
  accumulated_text : string;
  tool_uses : list content_block;
  current_tool_index : nat;
  input_tokens : Z;
  output_tokens : Z;
  message_started : bool
}.

Definition initial_stream_state : stream_state :=
  mk_stream_state "" [] 0 0%Z 0%Z false.

(** Lines 95-116: [message_start] is sent by the first content event. *)
Definition emit_message_start (request_id model : string)
    (st : stream_state) : stream_state * list sse :=
  if message_started st then (st, [])
  else (mk_stream_state (accumulated_text st) (tool_uses st)
          (current_tool_index st) (input_tokens st) (output_tokens st) true,
        [MessageStart request_id model]).

(** Lines 123-148: one start/stop pair per inline tool call, at index
    [current_tool_index]. *)
Fixpoint emit_bracket_calls (tool_calls : list bracket_call)
    (st : stream_state) : stream_state * list sse :=
  match tool_calls with
  | [] => (st, [])
  | tc :: rest =>
      let k := current_tool_index st in
      let tool_use :=
        ToolUse (mk_tool_use_id (time_ms k) k)
                (get_or "" (bc_name tc))
                (get_or (JDict []) (bc_arguments tc)) in
      let st1 :=
        mk_stream_state (accumulated_text st) (tool_uses st ++ [tool_use])
          (S k) (input_tokens st) (output_tokens st) (message_started st) in
      let (st2, out) := emit_bracket_calls rest st1 in
      (st2, ContentBlockStart k tool_use :: ContentBlockStop k :: out)
  end.

(** Lines 150-181: regular text content. *)
Definition emit_text (content : string) (st : stream_state)
    : stream_state * list sse :=
  if str_truthy content then
    let block_start :=
      if str_truthy (accumulated_text st) then []
      else [ContentBlockStart 0 (TextBlock "")] in
    (mk_stream_state (accumulated_text st ++ content) (tool_uses st)
       (current_tool_index st) (input_tokens st) (output_tokens st)
       (message_started st),
     block_start ++ [ContentBlockDelta 0 content])
  else (st, []).

(** Lines 184-188. *)
Definition read_usage (md : option metadata) : Z * Z :=
  let usage_info :=
    get_or (mk_usage_info None None) (usage (get_or (mk_metadata None) md)) in
  (get_or 0%Z (inputTokens usage_info), get_or 0%Z (outputTokens usage_info)).

(** Lines 87-188: the body of [for event in events]. *)
Definition handle_event (request_id model : string) (st : stream_state)
    (ev : event) : stream_state * list sse :=
  match ev with
  | Content data =>
      let content := get_or "" data in
      let (st1, out1) := emit_message_start request_id model st in
      let tool_calls := parse_bracket_tool_calls content in
      let (st2, out2) :=
        if list_truthy tool_calls then emit_bracket_calls tool_calls st1
        else emit_text content st1 in
      (st2, out1 ++ out2)
  | Metadata md =>
      let (i, o) := read_usage md in
      (mk_stream_state (accumulated_text st) (tool_uses st)
         (current_tool_index st) i o (message_started st), [])
  | OtherEvent _ => (st, [])
  end.

Fixpoint handle_events (request_id model : string) (st : stream_state)
    (events : list event) : stream_state * list sse :=
  match events with
  | [] => (st, [])
  | ev :: rest =>
      let (st1, out1) := handle_event request_id model st ev in
      let (st2, out2) := handle_events request_id model st1 rest in
      (st2, out1 ++ out2)
  end.

(** Result of the [async for] loop: it ran to the end of the body, or an
    exception left it after some frames had been yielded. *)
Inductive loop_result (S : Type) : Type :=
| Done (parser : P) (st : S) (out : list sse)
| Failed (out : list sse) (message : string).

Arguments Done {S} parser st out.
Arguments Failed {S} out message.

(** Lines 70-188: [async for chunk in response.aiter_bytes()]. *)
Fixpoint stream_chunks (request_id model : string) (parser : P)
    (st : stream_state) (body : list transport_item)
    : loop_result stream_state :=
  match body with
  | [] => Done parser st []
  | TransportError message :: _ => Failed [] message
  | Bytes chunk :: rest =>
      if list_truthy chunk then
        match feed parser chunk with
        | FeedRaised message => Failed [] message
        | Fed parser1 events =>
            let (st1, out1) := handle_events request_id model st events in
            match stream_chunks request_id model parser1 st1 rest with
            | Done parser2 st2 out2 => Done parser2 st2 (out1 ++ out2)
            | Failed out2 message => Failed (out1 ++ out2) message
            end
        end
      else stream_chunks request_id model parser st rest
  end.

(** Lines 207-213: conversion of the arguments of a deferred tool call.
    The [except] clause catches [json.JSONDecodeError] and [ValueError]
    only; any other exception leaves the [try] ([inr]). *)
Definition decode_arguments (tool_call : tool_call) : json + string :=
  let arguments :=
    get_or (JStr "{}")
      (fn_arguments
         (get_or (mk_function_call None None) (tc_function tool_call))) in
  match arguments with
  | JStr s =>
      match json_loads s with
      | Loaded v => inl v
      | DecodeError => inl (JDict [])
      | LoadsRaised message => inr message
      end
  | other => inl other
  end.

(** Lines 205-245: one start/stop pair per tool call reported by the
    parser. *)
Fixpoint emit_parser_tool_calls (parser_tool_calls : list tool_call)
    (st : stream_state) : stream_state * list sse * option string :=
  match parser_tool_calls with
  | [] => (st, [], None)
  | tool_call :: rest =>
      match decode_arguments tool_call with
      | inr message => (st, [], Some message)
      | inl arguments =>
          let k := current_tool_index st in
          let tool_use :=
            ToolUse (mk_tool_use_id (time_ms k) k)
                    (get_or ""
                       (fn_name
                          (get_or (mk_function_call None None)
                             (tc_function tool_call))))
                    arguments in
          let index :=
            k + (if str_truthy (accumulated_text st) then 1 else 0) in
          let st1 :=
            mk_stream_state (accumulated_text st) (tool_uses st ++ [tool_use])
              (S k) (input_tokens st) (output_tokens st)
              (message_started st) in
          let '(st2, out, failure) := emit_parser_tool_calls rest st1 in
          (st2,
           ContentBlockStart index tool_use :: ContentBlockStop index :: out,
           failure)
      end
  end.

(** Lines 190-276: what follows the loop. When an exception leaves the
    conversion of a reported tool call, the frames yielded so far are
    returned with it and the two closing frames are not reached. *)
Definition finish (st : stream_state) (parser_tool_calls : list tool_call)
    : stream_state * list sse * option string :=
  let text_stop :=
    if str_truthy (accumulated_text st) then [ContentBlockStop 0] else [] in
  let '(st1, tools, failure) :=
    if list_truthy parser_tool_calls
    then emit_parser_tool_calls parser_tool_calls st
    else (st, [], None) in
  let stop_reason :=
    if list_truthy (tool_uses st1) then "tool_use" else "end_turn" in
  (st1,
   text_stop ++ tools
   ++ match failure with
      | None => [MessageDelta stop_reason (output_tokens st1); MessageStop]
      | Some _ => []
      end,
   failure).

(** The generator: the frames it yields and how it ends (lines 278-289:
    on an exception, one [error] frame, then [raise]). *)
Definition stream_kiro_to_anthropic (response : list transport_item)
    (model : string) (request_id : option string) : list sse * outcome :=
  let request_id := effective_request_id request_id in
  match stream_chunks request_id model new_parser initial_stream_state
          response with
  | Done parser st out =>
      let '(_, frames, failure) := finish st (get_tool_calls parser) in
      match failure with
      | None => (out ++ frames, Completed)
      | Some message =>
          (out ++ frames ++ [ErrorEvent message], Raised message)
      end
  | Failed out message => (out ++ [ErrorEvent message], Raised message)
  end.

(** *** [collect_anthropic_response] *)

Record collect_state : Type := mk_collect_state {
  c_accumulated_text : string;
  content_blocks : list content_block;
  c_input_tokens : Z;
  c_output_tokens : Z;
  stop_reason : string
}.

Definition initial_collect_state : collect_state :=
  mk_collect_state "" [] 0%Z 0%Z "end_turn".

(** Lines 350-357: the identifier's suffix is [len(content_blocks)]. *)
Fixpoint append_bracket_calls (tool_calls : list bracket_call)
    (blocks : list content_block) : list content_block :=
  match tool_calls with
  | [] => blocks
  | tc :: rest =>
      let k := List.length blocks in
      append_bracket_calls rest
        (blocks ++ [ToolUse (mk_tool_use_id (time_ms k) k)
                            (get_or "" (bc_name tc))
                            (get_or (JDict []) (bc_arguments tc))])
  end.

(** Lines 340-366: the body of [for event in events]. *)
Definition collect_event (st : collect_state) (ev : event) : collect_state :=
  match ev with
  | Content data =>
      let content := get_or "" data in
      let tool_calls := parse_bracket_tool_calls content in
      if list_truthy tool_calls then
        mk_collect_state (c_accumulated_text st)
          (append_bracket_calls tool_calls (content_blocks st))
          (c_input_tokens st) (c_output_tokens st) "tool_use"
      else
        mk_collect_state (c_accumulated_text st ++ content)
          (content_blocks st) (c_input_tokens st) (c_output_tokens st)
          (stop_reason st)
  | Metadata md =>
      let (i, o) := read_usage md in
      mk_collect_state (c_accumulated_text st) (content_blocks st) i o
        (stop_reason st)
  | OtherEvent _ => st
  end.

Definition collect_events (st : collect_state) (events : list event)
    : collect_state :=
  fold_left collect_event events st.

(** Lines 323-366: [async for chunk in response.aiter_bytes()]; [inr] is
    the exception that leaves the loop. *)
Fixpoint collect_chunks (parser : P) (st : collect_state)
    (body : list transport_item) : (P * collect_state) + string :=
  match body with
  | [] => inl (parser, st)
  | TransportError message :: _ => inr message
  | Bytes chunk :: rest =>
      if list_truthy chunk then
        match feed parser chunk with
        | FeedRaised message => inr message
        | Fed parser1 events =>
            collect_chunks parser1 (collect_events st events) rest
        end
      else collect_chunks parser st rest
  end.

(** Lines 368-388: the text block goes to the front, then the object is
    built. *)
Definition build_response (request_id model : string) (st : collect_state)
    : anthropic_message :=
  let blocks :=
    if str_truthy (c_accumulated_text st)
    then TextBlock (c_accumulated_text st) :: content_blocks st
    else content_blocks st in
  mk_anthropic_message request_id model blocks (stop_reason st)
    (c_input_tokens st) (c_output_tokens st).

(** The coroutine: the object it returns, or the exception it re-raises
    (lines 390-392). *)
Definition collect_anthropic_response (response : list transport_item)
    (model : string) (request_id : option string)
    : anthropic_message + string :=
  let request_id := effective_request_id request_id in
  match collect_chunks new_parser initial_collect_state response with
  | inl (_, st) => inl (build_response request_id model st)
  | inr message => inr message
  end.

(* ================================================================ *)
(** ** Vocabulary of the properties *)

(** What the decoder makes of a body: the records of all chunks in order,
    up to the end of the body or up to the first failure of the transport
    or of the decoder. *)
Inductive decoded : Type :=
| Decoded (parser : P) (records : list event)
| DecodeFailed (records : list event) (message : string).

Fixpoint decode (parser : P) (body : list transport_item) : decoded :=
  match body with
  | [] => Decoded parser []
  | TransportError message :: _ => DecodeFailed [] message
  | Bytes [] :: rest => decode parser rest
  | Bytes chunk :: rest =>
      match feed parser chunk with
      | FeedRaised message => DecodeFailed [] message
      | Fed parser1 events =>
          match decode parser1 rest with
          | Decoded parser2 records => Decoded parser2 (events ++ records)
          | DecodeFailed records message =>
              DecodeFailed (events ++ records) message
          end
      end
  end.

(** The tool invocations found inline in the content records. *)
Definition event_tool_calls (ev : event) : list bracket_call :=
  match ev with
  | Content data => parse_bracket_tool_calls (get_or "" data)
  | _ => []
  end.

Definition inline_tool_calls (records : list event) : list bracket_call :=
  flat_map event_tool_calls records.

(** The usage mapping of the last metadata record, if any record is one. *)
Fixpoint last_metadata (records : list event) : option (option metadata) :=
  match records with
  | [] => None
  | ev :: rest =>
      match last_metadata rest with
      | Some md => Some md
      | None =>
          match ev with
          | Metadata md => Some md
          | _ => None
          end
      end
  end.

(** The two counters a metadata record stands for, a missing field
    counting as zero; zero when there was no metadata record. *)
Definition reported_usage (last : option (option metadata)) : Z * Z :=
  match last with
  | Some (Some {| usage := Some {| inputTokens := i; outputTokens := o |} |}) =>
      (match i with Some n => n | None => 0%Z end,
       match o with Some n => n | None => 0%Z end)
  | _ => (0%Z, 0%Z)
  end.

(** Indices of the blocks a frame list opens, in order. *)
Definition block_start_indices (out : list sse) : list nat :=
  flat_map
    (fun f =>
       match f with
       | ContentBlockStart index _ => [index]
       | _ => []
       end)
    out.

(** Indices of the tool-use blocks a frame list opens, in order. *)
Definition tool_start_indices (out : list sse) : list nat :=
  flat_map
    (fun f =>
       match f with
       | ContentBlockStart index (ToolUse _ _ _) => [index]
       | _ => []
       end)
    out.

Definition is_delta_frame (f : sse) : bool :=
  match f with
  | ContentBlockDelta _ _ => true
  | _ => false
  end.

(** Number of tool-use blocks in a content list. *)
Definition count_tool_use (blocks : list content_block) : nat :=
  List.length (filter is_tool_use blocks).

Definition is_content (ev : event) : bool :=
  match ev with
  | Content _ => true
  | _ => false
  end.

(** The frames that end a stream. *)
Definition closes_stream (f : sse) : bool :=
  match f with
  | MessageDelta _ _ | MessageStop | ErrorEvent _ => true
  | _ => false
  end.

(** *** Closed forms *)

(** The records a body decodes to, whether it ends or fails. *)
Definition decoded_records (d : decoded) : list event :=
  match d with
  | Decoded _ records => records
  | DecodeFailed records _ => records
  end.

(** Concatenation of strings, in order. *)
Definition join (parts : list string) : string :=
  fold_right append "" parts.

(** The text of a record that counts as prose: the data of a content
    record in which the extractor finds nothing. *)
Definition plain_text (ev : event) : string :=
  match ev with
  | Content data =>
      if list_truthy (parse_bracket_tool_calls (get_or "" data))
      then "" else get_or "" data
  | _ => ""
  end.

(** Index and text of the delta frames, in order. *)
Definition deltas (out : list sse) : list (nat * string) :=
  flat_map
    (fun f =>
       match f with
       | ContentBlockDelta index text => [(index, text)]
       | _ => []
       end)
    out.

(** The tool-use blocks a frame list opens, in order. *)
Definition opened_tool_blocks (out : list sse) : list content_block :=
  flat_map
    (fun f =>
       match f with
       | ContentBlockStart _ (ToolUse id name input) => [ToolUse id name input]
       | _ => []
       end)
    out.

(** Indices of the blocks a frame list closes, in order. *)
Definition block_stop_indices (out : list sse) : list nat :=
  flat_map
    (fun f =>
       match f with
       | ContentBlockStop index => [index]
       | _ => []
       end)
    out.

Definition is_message_start (f : sse) : bool :=
  match f with
  | MessageStart _ _ => true
  | _ => false
  end.

(** The tool-use block of an inline call that is the [k]-th tool call of
    the translation (from 0). *)
Definition bracket_block (k : nat) (tc : bracket_call) : content_block :=
  ToolUse (mk_tool_use_id (time_ms k) k)
          (get_or "" (bc_name tc))
          (get_or (JDict []) (bc_arguments tc)).

Fixpoint bracket_blocks (k : nat) (tool_calls : list bracket_call)
    : list content_block :=
  match tool_calls with
  | [] => []
  | tc :: rest => bracket_block k tc :: bracket_blocks (S k) rest
  end.

(** The same for a call reported by the decoder, with its converted
    arguments. *)
Definition parser_block (k : nat) (tool_call : tool_call) (arguments : json)
    : content_block :=
  ToolUse (mk_tool_use_id (time_ms k) k)
          (get_or ""
             (fn_name
                (get_or (mk_function_call None None) (tc_function tool_call))))
          arguments.

(** The blocks of the reported calls, up to the first one whose
    conversion raises. *)
Fixpoint parser_blocks (k : nat) (parser_tool_calls : list tool_call)
    : list content_block :=
  match parser_tool_calls with
  | [] => []
  | tool_call :: rest =>
      match decode_arguments tool_call with
      | inl arguments =>
          parser_block k tool_call arguments :: parser_blocks (S k) rest
      | inr _ => []
      end
  end.

(** The exception that leaves the conversion of the reported calls, if
    any: the first one raised. *)
Fixpoint drain_failure (parser_tool_calls : list tool_call) : option string :=
  match parser_tool_calls with
  | [] => None
  | tool_call :: rest =>
      match decode_arguments tool_call with
      | inl _ => drain_failure rest
      | inr message => Some message
      end
  end.

(** Every tool-use block is opened and closed by two adjacent frames. *)
Fixpoint tool_pairs_atomic (out : list sse) : bool :=
  match out with
  | [] => true
  | ContentBlockStart k (ToolUse _ _ _) :: rest =>
      match rest with
      | ContentBlockStop k' :: rest' => Nat.eqb k k' && tool_pairs_atomic rest'
      | _ => false
      end
  | _ :: rest => tool_pairs_atomic rest
  end.

(** The frame and the outcome that an exception leaving the generator's
    [try] block produces (lines 278-289). *)
Definition error_frames (failure : option string) : list sse :=
  match failure with
  | None => []
  | Some message => [ErrorEvent message]
  end.

Definition outcome_of (failure : option string) : outcome :=
  match failure with
  | None => Completed
  | Some message => Raised message
  end.

(** A body without its empty chunks. *)
Definition drop_empty_chunks (body : list transport_item)
    : list transport_item :=
  filter
    (fun item =>
       match item with
       | Bytes [] => false
       | _ => true
       end)
    body.

Definition is_text_start (f : sse) : bool :=
  match f with
  | ContentBlockStart _ (TextBlock _) => true
  | _ => false
  end.

(** The suffixes of the identifiers of the tool-use blocks of a list. *)
Definition tool_suffixes (blocks : list content_block) : list nat :=
  flat_map
    (fun b =>
       match b with
       | ToolUse id _ _ => [id_suffix id]
       | TextBlock _ => []
       end)
    blocks.

(** The text block at the front of a content list, if the text is not
    empty. *)
Definition text_block_of (text : string) : list content_block :=
  if str_truthy text then [TextBlock text] else [].

(* ================================================================ *)
(** ** The loops follow the decoded record sequence *)

Lemma handle_events_app request_id model st xs ys :
  handle_events request_id model st (xs ++ ys) =
  let (st1, out1) := handle_events request_id model st xs in
  let (st2, out2) := handle_events request_id model st1 ys in
  (st2, out1 ++ out2).
Proof.
  revert st. induction xs as [|x xs IH]; intros st; simpl.
  - destruct (handle_events request_id model st ys); reflexivity.
  - destruct (handle_event request_id model st x) as [sx ox].
    rewrite IH.
    destruct (handle_events request_id model sx xs) as [s1 o1].
    destruct (handle_events request_id model s1 ys) as [s2 o2].
    now rewrite app_assoc.
Qed.

Lemma collect_events_app st xs ys :
  collect_events st (xs ++ ys) = collect_events (collect_events st xs) ys.
Proof. unfold collect_events. apply fold_left_app. Qed.

(** The emitter's loop yields what [handle_events] yields on the decoded
    records, whatever the chunking. *)
Lemma stream_chunks_decode request_id model body : forall parser st,
  stream_chunks request_id model parser st body =
  match decode parser body with
  | Decoded parser1 records =>
      let (st1, out) := handle_events request_id model st records in
      Done parser1 st1 out
  | DecodeFailed records message =>
      Failed (snd (handle_events request_id model st records)) message
  end.
Proof.
  induction body as [|item rest IH]; intros parser st; simpl.
  - reflexivity.
  - destruct item as [chunk|message]; [|reflexivity].
    destruct chunk as [|b chunk]; simpl.
    + apply IH.
    + destruct (feed parser (b :: chunk)) as [parser1 events|message];
        [|reflexivity].
      destruct (handle_events request_id model st events) as [st1 out1] eqn:E.
      rewrite IH.
      destruct (decode parser1 rest) as [parser2 records|records message];
        rewrite handle_events_app, E;
        destruct (handle_events request_id model st1 records);
        reflexivity.
Qed.

Lemma collect_chunks_decode body : forall parser st,
  collect_chunks parser st body =
  match decode parser body with
  | Decoded parser1 records => inl (parser1, collect_events st records)
  | DecodeFailed _ message => inr message
  end.
Proof.
  induction body as [|item rest IH]; intros parser st; simpl.
  - reflexivity.
  - destruct item as [chunk|message]; [|reflexivity].
    destruct chunk as [|b chunk]; simpl.
    + apply IH.
    + destruct (feed parser (b :: chunk)) as [parser1 events|message];
        [|reflexivity].
      rewrite IH.
      destruct (decode parser1 rest) as [parser2 records|records message];
        [|reflexivity].
      now rewrite collect_events_app.
Qed.

Lemma stream_of_decoded body model request_id parser records :
  decode new_parser body = Decoded parser records ->
  stream_kiro_to_anthropic body model request_id =
  (let r := handle_events (effective_request_id request_id) model
              initial_stream_state records in
   let f := finish (fst r) (get_tool_calls parser) in
   (snd r ++ snd (fst f) ++ error_frames (snd f), outcome_of (snd f))).
Proof.
  intros D. unfold stream_kiro_to_anthropic.
  rewrite stream_chunks_decode, D.
  destruct (handle_events _ _ _ records) as [st out]. cbv zeta. cbn [fst snd].
  destruct (finish st (get_tool_calls parser)) as [[st1 frames] [message|]];
    cbn [fst snd error_frames outcome_of]; [reflexivity|].
  now rewrite app_nil_r.
Qed.

Lemma stream_of_failed body model request_id records message :
  decode new_parser body = DecodeFailed records message ->
  stream_kiro_to_anthropic body model request_id =
  (snd (handle_events (effective_request_id request_id) model
          initial_stream_state records)
   ++ [ErrorEvent message],
   Raised message).
Proof.
  intros D. unfold stream_kiro_to_anthropic.
  now rewrite stream_chunks_decode, D.
Qed.

Lemma collect_of_decoded body model request_id parser records :
  decode new_parser body = Decoded parser records ->
  collect_anthropic_response body model request_id =
  inl (build_response (effective_request_id request_id) model
         (collect_events initial_collect_state records)).
Proof.
  intros D. unfold collect_anthropic_response.
  now rewrite collect_chunks_decode, D.
Qed.

(* ================================================================ *)
(** ** What each step of the emitter changes *)

Lemma emit_bracket_calls_state tool_calls : forall st,
  let st1 := fst (emit_bracket_calls tool_calls st) in
  accumulated_text st1 = accumulated_text st /\
  current_tool_index st1 = current_tool_index st + List.length tool_calls /\
  List.length (tool_uses st1) =
    List.length (tool_uses st) + List.length tool_calls /\
  input_tokens st1 = input_tokens st /\
  output_tokens st1 = output_tokens st /\
  message_started st1 = message_started st.
Proof.
  induction tool_calls as [|tc rest IH]; intros st; simpl.
  - repeat split; lia.
  - match goal with
    | |- context [emit_bracket_calls rest ?s] =>
        specialize (IH s); destruct (emit_bracket_calls rest s) as [st2 out]
    end.
    simpl in IH |- *. rewrite length_app in IH. simpl in IH.
    destruct IH as (A & B & C & D & E & F).
    repeat split; try assumption; lia.
Qed.

Lemma emit_bracket_calls_tool_indices tool_calls : forall st,
  tool_start_indices (snd (emit_bracket_calls tool_calls st)) =
  seq (current_tool_index st) (List.length tool_calls).
Proof.
  induction tool_calls as [|tc rest IH]; intros st; simpl.
  - reflexivity.
  - match goal with
    | |- context [emit_bracket_calls rest ?s] =>
        specialize (IH s); destruct (emit_bracket_calls rest s) as [st2 out]
    end.
    simpl in IH |- *. now rewrite IH.
Qed.

Lemma emit_bracket_calls_frames tool_calls : forall st f,
  In f (snd (emit_bracket_calls tool_calls st)) ->
  (exists k id name input, f = ContentBlockStart k (ToolUse id name input)) \/
  (exists k, f = ContentBlockStop k).
Proof.
  induction tool_calls as [|tc rest IH]; intros st f; simpl.
  - intros [].
  - match goal with
    | |- context [emit_bracket_calls rest ?s] =>
        specialize (IH s f); destruct (emit_bracket_calls rest s) as [st2 out]
    end.
    simpl in IH |- *. intros [<-|[<-|H]]; eauto 6.
Qed.

(** One step of the loop over the reported calls, in a proof. *)
Ltac step_drain IH rest tc :=
  destruct (decode_arguments tc) as [arguments|failure];
  [ match goal with
    | |- context [emit_parser_tool_calls rest ?s] =>
        specialize (IH s);
        destruct (emit_parser_tool_calls rest s) as [[st2 out] failure2]
    end
  | ].

Lemma emit_parser_tool_calls_state parser_tool_calls : forall st,
  let st1 := fst (fst (emit_parser_tool_calls parser_tool_calls st)) in
  let n :=
    List.length (parser_blocks (current_tool_index st) parser_tool_calls) in
  accumulated_text st1 = accumulated_text st /\
  current_tool_index st1 = current_tool_index st + n /\
  List.length (tool_uses st1) = List.length (tool_uses st) + n /\
  input_tokens st1 = input_tokens st /\
  output_tokens st1 = output_tokens st /\
  message_started st1 = message_started st.
Proof.
  induction parser_tool_calls as [|tc rest IH]; intros st; simpl.
  - repeat split; lia.
  - step_drain IH rest tc.
    + simpl in IH |- *. rewrite length_app in IH. simpl in IH.
      destruct IH as (A & B & C & D & E & F).
      repeat split; try assumption; lia.
    + simpl. repeat split; lia.
Qed.

Lemma emit_parser_tool_calls_tool_indices parser_tool_calls : forall st,
  tool_start_indices
    (snd (fst (emit_parser_tool_calls parser_tool_calls st))) =
  seq (current_tool_index st
       + (if str_truthy (accumulated_text st) then 1 else 0))
      (List.length (parser_blocks (current_tool_index st) parser_tool_calls)).
Proof.
  induction parser_tool_calls as [|tc rest IH]; intros st; simpl.
  - reflexivity.
  - step_drain IH rest tc; [|reflexivity].
    simpl in IH |- *. now rewrite IH.
Qed.

Lemma emit_parser_tool_calls_frames parser_tool_calls : forall st f,
  In f (snd (fst (emit_parser_tool_calls parser_tool_calls st))) ->
  (exists k id name input, f = ContentBlockStart k (ToolUse id name input)) \/
  (exists k, f = ContentBlockStop k).
Proof.
  induction parser_tool_calls as [|tc rest IH]; intros st f; simpl.
  - intros [].
  - step_drain IH rest tc; [|intros []].
    specialize (IH f).
    simpl in IH |- *. intros [<-|[<-|H]]; eauto 6.
Qed.

(** The loop over the reported calls stops at the first conversion that
    raises, and only there. *)
Lemma emit_parser_tool_calls_failure parser_tool_calls : forall st,
  snd (emit_parser_tool_calls parser_tool_calls st) =
  drain_failure parser_tool_calls.
Proof.
  induction parser_tool_calls as [|tc rest IH]; intros st; simpl.
  - reflexivity.
  - step_drain IH rest tc; [|reflexivity]. exact IH.
Qed.

Lemma parser_blocks_length parser_tool_calls : forall k,
  drain_failure parser_tool_calls = None ->
  List.length (parser_blocks k parser_tool_calls) =
  List.length parser_tool_calls.
Proof.
  induction parser_tool_calls as [|tc rest IH]; intros k; simpl.
  - reflexivity.
  - destruct (decode_arguments tc); [|discriminate].
    intros H. simpl. now rewrite IH.
Qed.

Lemma emit_message_start_state request_id model st :
  let st1 := fst (emit_message_start request_id model st) in
  accumulated_text st1 = accumulated_text st /\
  current_tool_index st1 = current_tool_index st /\
  tool_uses st1 = tool_uses st /\
  input_tokens st1 = input_tokens st /\
  output_tokens st1 = output_tokens st /\
  message_started st1 = true.
Proof.
  unfold emit_message_start.
  destruct (message_started st) eqn:E; simpl; auto 10.
Qed.

Lemma emit_message_start_tool_indices request_id model st :
  tool_start_indices (snd (emit_message_start request_id model st)) = [].
Proof.
  unfold emit_message_start. destruct (message_started st); reflexivity.
Qed.

Lemma emit_text_state content st :
  let st1 := fst (emit_text content st) in
  current_tool_index st1 = current_tool_index st /\
  tool_uses st1 = tool_uses st /\
  input_tokens st1 = input_tokens st /\
  output_tokens st1 = output_tokens st /\
  message_started st1 = message_started st.
Proof.
  unfold emit_text. destruct (str_truthy content); simpl; auto.
Qed.

Lemma emit_text_tool_indices content st :
  tool_start_indices (snd (emit_text content st)) = [].
Proof.
  unfold emit_text.
  destruct (str_truthy content); [|reflexivity].
  destruct (str_truthy (accumulated_text st)); reflexivity.
Qed.

Lemma tool_start_indices_app xs ys :
  tool_start_indices (xs ++ ys) =
  tool_start_indices xs ++ tool_start_indices ys.
Proof. unfold tool_start_indices. apply flat_map_app. Qed.

Lemma list_truthy_false {A : Type} (l : list A) :
  list_truthy l = false -> l = [].
Proof. destruct l; [reflexivity|discriminate]. Qed.

(** One event: the counters, the tool bookkeeping and the indices of the
    tool-use blocks it opens. *)
Lemma handle_event_effect request_id model st ev :
  let r := handle_event request_id model st ev in
  current_tool_index (fst r) =
    current_tool_index st + List.length (event_tool_calls ev) /\
  List.length (tool_uses (fst r)) =
    List.length (tool_uses st) + List.length (event_tool_calls ev) /\
  (input_tokens (fst r), output_tokens (fst r)) =
    match ev with
    | Metadata md => read_usage md
    | _ => (input_tokens st, output_tokens st)
    end /\
  tool_start_indices (snd r) =
    seq (current_tool_index st) (List.length (event_tool_calls ev)).
Proof.
  destruct ev as [data|md|ty]; simpl.
  - pose proof (emit_message_start_state request_id model st) as M.
    pose proof (emit_message_start_tool_indices request_id model st) as MI.
    destruct (emit_message_start request_id model st) as [st1 out1].
    simpl in M, MI. destruct M as (M1 & M2 & M3 & M4 & M5 & M6).
    destruct (list_truthy (parse_bracket_tool_calls (get_or "" data))) eqn:T.
    + pose proof (emit_bracket_calls_state
                    (parse_bracket_tool_calls (get_or "" data)) st1) as B.
      pose proof (emit_bracket_calls_tool_indices
                    (parse_bracket_tool_calls (get_or "" data)) st1) as BI.
      destruct (emit_bracket_calls _ st1) as [st2 out2].
      simpl in B, BI |- *. destruct B as (B1 & B2 & B3 & B4 & B5 & B6).
      rewrite tool_start_indices_app, MI, BI. simpl.
      repeat split; congruence.
    + rewrite (list_truthy_false _ T). simpl.
      pose proof (emit_text_state (get_or "" data) st1) as X.
      pose proof (emit_text_tool_indices (get_or "" data) st1) as XI.
      destruct (emit_text (get_or "" data) st1) as [st2 out2].
      simpl in X, XI |- *. destruct X as (X1 & X2 & X3 & X4 & X5).
      rewrite tool_start_indices_app, MI, XI, X1, X2, X3, X4, M2, M3, M4, M5.
      simpl. repeat split; try reflexivity; lia.
  - unfold read_usage. simpl. repeat split; try reflexivity; lia.
  - repeat split; try reflexivity; lia.
Qed.

Lemma last_metadata_app xs ys :
  last_metadata (xs ++ ys) =
  match last_metadata ys with
  | Some md => Some md
  | None => last_metadata xs
  end.
Proof.
  induction xs as [|x xs IH]; simpl.
  - destruct (last_metadata ys); reflexivity.
  - rewrite IH. destruct (last_metadata ys); reflexivity.
Qed.

Lemma read_usage_reported md : read_usage md = reported_usage (Some md).
Proof.
  destruct md as [[[[i o]|]]|]; reflexivity.
Qed.

(** A run of events: the same four facts, over the whole run. *)
Lemma handle_events_effect request_id model records : forall st,
  let r := handle_events request_id model st records in
  current_tool_index (fst r) =
    current_tool_index st + List.length (inline_tool_calls records) /\
  List.length (tool_uses (fst r)) =
    List.length (tool_uses st) + List.length (inline_tool_calls records) /\
  (input_tokens (fst r), output_tokens (fst r)) =
    match last_metadata records with
    | Some md => reported_usage (Some md)
    | None => (input_tokens st, output_tokens st)
    end /\
  tool_start_indices (snd r) =
    seq (current_tool_index st) (List.length (inline_tool_calls records)).
Proof.
  induction records as [|ev rest IH]; intros st; simpl.
  - repeat split; lia.
  - pose proof (handle_event_effect request_id model st ev) as E.
    destruct (handle_event request_id model st ev) as [st1 out1].
    specialize (IH st1).
    destruct (handle_events request_id model st1 rest) as [st2 out2].
    simpl in E, IH |- *. destruct E as (E1 & E2 & E3 & E4).
    destruct IH as (I1 & I2 & I3 & I4).
    rewrite length_app, tool_start_indices_app, E4, I4, E1, seq_app.
    repeat split; try lia.
    rewrite I3. destruct (last_metadata rest); [reflexivity|].
    rewrite E3. destruct ev; try reflexivity. apply read_usage_reported.
Qed.

Lemma emit_message_start_frames request_id model st f :
  In f (snd (emit_message_start request_id model st)) ->
  closes_stream f = false.
Proof.
  unfold emit_message_start. destruct (message_started st); simpl.
  - intros [].
  - intros [<-|[]]. reflexivity.
Qed.

Lemma emit_text_frames content st f :
  In f (snd (emit_text content st)) -> closes_stream f = false.
Proof.
  unfold emit_text. destruct (str_truthy content); simpl; [|intros []].
  destruct (str_truthy (accumulated_text st)); simpl.
  - intros [<-|[]]. reflexivity.
  - intros [<-|[<-|[]]]; reflexivity.
Qed.

Lemma tool_frames_do_not_close f :
  (exists k id name input, f = ContentBlockStart k (ToolUse id name input)) \/
  (exists k, f = ContentBlockStop k) ->
  closes_stream f = false.
Proof.
  intros [(k & id & name & input & ->)|(k & ->)]; reflexivity.
Qed.

Lemma handle_event_frames request_id model st ev f :
  In f (snd (handle_event request_id model st ev)) -> closes_stream f = false.
Proof.
  destruct ev as [data|md|ty]; simpl; [| |intros []].
  - pose proof (emit_message_start_frames request_id model st f) as M.
    destruct (emit_message_start request_id model st) as [st1 out1].
    destruct (list_truthy (parse_bracket_tool_calls (get_or "" data))).
    + pose proof (emit_bracket_calls_frames
                    (parse_bracket_tool_calls (get_or "" data)) st1 f) as B.
      destruct (emit_bracket_calls _ st1) as [st2 out2].
      simpl in M, B |- *. rewrite in_app_iff. intros [H|H]; [auto|].
      apply tool_frames_do_not_close. auto.
    + pose proof (emit_text_frames (get_or "" data) st1 f) as X.
      destruct (emit_text (get_or "" data) st1) as [st2 out2].
      simpl in M, X |- *. rewrite in_app_iff. intros [H|H]; auto.
  - destruct (read_usage md). simpl. intros [].
Qed.

(** While records arrive, no frame that ends a stream is yielded. *)
Lemma handle_events_frames request_id model records : forall st f,
  In f (snd (handle_events request_id model st records)) ->
  closes_stream f = false.
Proof.
  induction records as [|ev rest IH]; intros st f; simpl; [intros []|].
  pose proof (handle_event_frames request_id model st ev f) as E.
  destruct (handle_event request_id model st ev) as [st1 out1].
  specialize (IH st1 f).
  destruct (handle_events request_id model st1 rest) as [st2 out2].
  simpl in E, IH |- *. rewrite in_app_iff. intros [H|H]; auto.
Qed.

Lemma finish_drains st parser_tool_calls :
  (if list_truthy parser_tool_calls
   then emit_parser_tool_calls parser_tool_calls st
   else (st, [], None)) = emit_parser_tool_calls parser_tool_calls st.
Proof. destruct parser_tool_calls; reflexivity. Qed.

(** What follows the loop, by its parts: the stop of the text block, the
    frames of the reported calls, and the two closing frames unless a
    conversion raised. *)
Lemma finish_shape st parser_tool_calls :
  let e := emit_parser_tool_calls parser_tool_calls st in
  finish st parser_tool_calls =
  (fst (fst e),
   (if str_truthy (accumulated_text st) then [ContentBlockStop 0] else [])
   ++ snd (fst e)
   ++ match drain_failure parser_tool_calls with
      | None =>
          [MessageDelta
             (if list_truthy (tool_uses (fst (fst e)))
              then "tool_use" else "end_turn")
             (output_tokens st);
           MessageStop]
      | Some _ => []
      end,
   drain_failure parser_tool_calls).
Proof.
  cbv zeta. unfold finish. rewrite finish_drains.
  pose proof (emit_parser_tool_calls_failure parser_tool_calls st) as F.
  pose proof (emit_parser_tool_calls_state parser_tool_calls st) as S.
  destruct (emit_parser_tool_calls parser_tool_calls st)
    as [[st1 tools] failure].
  cbn [fst snd] in F, S |- *. destruct S as (_ & _ & _ & _ & S5 & _).
  now rewrite F, S5.
Qed.

Lemma outcome_of_completed failure :
  outcome_of failure = Completed -> failure = None.
Proof. destruct failure; [discriminate|reflexivity]. Qed.

(** A stream whose body decodes to the end completes exactly when no
    conversion of a reported call raises. *)
Lemma stream_outcome body model request_id parser records :
  decode new_parser body = Decoded parser records ->
  snd (stream_kiro_to_anthropic body model request_id) =
  outcome_of (drain_failure (get_tool_calls parser)).
Proof.
  intros D. rewrite (stream_of_decoded _ _ _ D). cbv zeta.
  now rewrite finish_shape.
Qed.

Lemma list_truthy_by_length {A B C : Type}
    (l : list A) (xs : list B) (ys : list C) :
  List.length l = List.length xs + List.length ys ->
  list_truthy l = list_truthy xs || list_truthy ys.
Proof.
  destruct l, xs, ys; simpl; intros; try reflexivity; lia.
Qed.

(* ================================================================ *)
(** ** Properties of the emitter *)

(** C2: for the record sequence ContentRecord("Hello "),
    ContentRecord("world"), MetadataRecord(usage 5 in, 2 out), with no
    marker in either text and no tool call held back by the decoder, the
    emitter yields exactly message_start, content_block_start (index 0,
    empty text), the two deltas at index 0, content_block_stop (index 0),
    message_delta (end_turn, 2 output tokens) and message_stop, and ends
    normally, however the records are spread over chunks. *)
Theorem C2_hello_world_frames body model request_id parser :
  decode new_parser body =
    Decoded parser
      [Content (Some "Hello "); Content (Some "world");
       Metadata
         (Some (mk_metadata (Some (mk_usage_info (Some 5%Z) (Some 2%Z)))))] ->
  get_tool_calls parser = [] ->
  parse_bracket_tool_calls "Hello " = [] ->
  parse_bracket_tool_calls "world" = [] ->
  stream_kiro_to_anthropic body model request_id =
  ([MessageStart (effective_request_id request_id) model;
    ContentBlockStart 0 (TextBlock "");
    ContentBlockDelta 0 "Hello ";
    ContentBlockDelta 0 "world";
    ContentBlockStop 0;
    MessageDelta "end_turn" 2%Z;
    MessageStop],
   Completed).
Proof.
  intros D T H W.
  rewrite (stream_of_decoded _ _ _ D), T. cbv zeta.
  cbn [handle_events handle_event get_or emit_message_start
       initial_stream_state message_started].
  rewrite H. cbn [list_truthy emit_text str_truthy accumulated_text].
  rewrite W. reflexivity.
Qed.

(** How a completed stream ends. *)
Lemma stream_closing_frames body model request_id parser records :
  decode new_parser body = Decoded parser records ->
  snd (stream_kiro_to_anthropic body model request_id) = Completed ->
  exists pre,
    fst (stream_kiro_to_anthropic body model request_id) =
      pre ++ [MessageDelta
                (if list_truthy (inline_tool_calls records)
                    || list_truthy (get_tool_calls parser)
                 then "tool_use" else "end_turn")
                (snd (reported_usage (last_metadata records)));
              MessageStop] /\
    (forall f, In f pre -> closes_stream f = false).
Proof.
  intros D C. rewrite (stream_outcome _ _ _ D) in C.
  apply outcome_of_completed in C.
  rewrite (stream_of_decoded _ _ _ D). cbv zeta.
  pose proof (handle_events_effect (effective_request_id request_id) model
                records initial_stream_state) as E.
  pose proof (handle_events_frames (effective_request_id request_id) model
                records initial_stream_state) as F.
  destruct (handle_events _ model initial_stream_state records) as [st out].
  cbn [fst snd] in E, F |- *. destruct E as (_ & E2 & E3 & _).
  simpl in E2.
  rewrite finish_shape, C. cbn [fst snd error_frames].
  pose proof (emit_parser_tool_calls_state (get_tool_calls parser) st) as S.
  pose proof (emit_parser_tool_calls_frames (get_tool_calls parser) st) as G.
  destruct (emit_parser_tool_calls (get_tool_calls parser) st)
    as [[st1 tools] failure].
  cbn [fst snd] in S, G |- *. destruct S as (_ & _ & S3 & _).
  rewrite (parser_blocks_length _ _ C) in S3.
  exists (out ++ (if str_truthy (accumulated_text st)
                  then [ContentBlockStop 0] else []) ++ tools).
  split.
  - rewrite app_nil_r, <- !app_assoc. repeat f_equal.
    + apply f_equal with (f := fun b : bool =>
                                 if b then "tool_use" else "end_turn").
      apply list_truthy_by_length. lia.
    + assert (output_tokens st =
              snd (input_tokens st, output_tokens st)) as -> by reflexivity.
      rewrite E3. now destruct (last_metadata records).
  - intros f. rewrite !in_app_iff. intros [H|[H|H]].
    + now apply F.
    + destruct (str_truthy (accumulated_text st)); simpl in H;
        [destruct H as [<-|[]]; reflexivity|destruct H].
    + apply tool_frames_do_not_close. auto.
Qed.

(** C5: when the translation completes, the last two frames are
    message_delta and message_stop, and the stop reason of that
    message_delta is "tool_use" if an inline marker was found in some
    content record or the decoder reported a tool call at the end, and
    "end_turn" otherwise; no message_delta comes earlier. (When the
    conversion of a reported call raises, the stream does not complete and
    has no message_delta.) *)
Theorem C5_stream_stop_reason body model request_id parser records :
  decode new_parser body = Decoded parser records ->
  snd (stream_kiro_to_anthropic body model request_id) = Completed ->
  exists pre,
    fst (stream_kiro_to_anthropic body model request_id) =
      pre ++ [MessageDelta
                (if list_truthy (inline_tool_calls records)
                    || list_truthy (get_tool_calls parser)
                 then "tool_use" else "end_turn")
                (snd (reported_usage (last_metadata records)));
              MessageStop] /\
    (forall f, In f pre -> closes_stream f = false).
Proof. apply stream_closing_frames. Qed.

(** C7: when the transport or the decoder fails, the emitter yields the
    frames of the records decoded so far, then one error frame carrying
    the failure's message, and re-raises that failure; the error frame is
    the last frame and the only one that ends the stream (no
    message_delta, no message_stop, no other error frame). *)
Theorem C7_error_frame_then_raise body model request_id records message :
  decode new_parser body = DecodeFailed records message ->
  exists pre,
    stream_kiro_to_anthropic body model request_id =
      (pre ++ [ErrorEvent message], Raised message) /\
    pre = snd (handle_events (effective_request_id request_id) model
                 initial_stream_state records) /\
    (forall f, In f pre -> closes_stream f = false).
Proof.
  intros D. rewrite (stream_of_failed _ _ _ D).
  eexists. split; [reflexivity|]. split; [reflexivity|].
  apply handle_events_frames.
Qed.

Lemma drain_failure_app before : forall after,
  drain_failure (before ++ after) =
  match drain_failure before with
  | Some message => Some message
  | None => drain_failure after
  end.
Proof.
  induction before as [|tc before IH]; intros after; simpl; [reflexivity|].
  destruct (decode_arguments tc); [apply IH|reflexivity].
Qed.

Lemma parser_blocks_stop_at_failure before tool_call after message :
  forall k,
  drain_failure before = None ->
  decode_arguments tool_call = inr message ->
  List.length (parser_blocks k (before ++ tool_call :: after)) =
  List.length before.
Proof.
  induction before as [|tc before IH]; intros k B T; simpl.
  - now rewrite T.
  - simpl in B. destruct (decode_arguments tc); [|discriminate].
    simpl. now rewrite IH.
Qed.

Lemma emit_parser_tool_calls_nth before tool_call after arguments :
  forall st,
  drain_failure before = None ->
  decode_arguments tool_call = inl arguments ->
  let k := current_tool_index st + List.length before in
  let index := k + (if str_truthy (accumulated_text st) then 1 else 0) in
  let out :=
    snd (fst (emit_parser_tool_calls (before ++ tool_call :: after) st)) in
  In (ContentBlockStart index
        (ToolUse (mk_tool_use_id (time_ms k) k)
           (get_or ""
              (fn_name
                 (get_or (mk_function_call None None)
                    (tc_function tool_call))))
           arguments)) out /\
  In (ContentBlockStop index) out.
Proof.
  induction before as [|b before IH]; intros st B T; simpl.
  - rewrite T.
    destruct (emit_parser_tool_calls after _) as [[st2 out2] failure2].
    simpl. rewrite Nat.add_0_r. auto.
  - simpl in B. destruct (decode_arguments b); [|discriminate].
    match goal with
    | |- context [emit_parser_tool_calls _ ?s] =>
        specialize (IH s B T);
        destruct (emit_parser_tool_calls (before ++ tool_call :: after) s)
          as [[st2 out2] failure2]
    end.
    simpl in IH |- *. rewrite <- plus_n_Sm. destruct IH as [IH1 IH2]. auto.
Qed.

(** The case that lines 211-213 catch: a reported call whose argument
    text makes json.loads raise JSONDecodeError is opened and closed as a
    tool-use block with the empty mapping as input, provided no earlier
    reported call made the conversion raise. *)
Lemma caught_decode_error_gives_empty_input
    body model request_id parser records before tool_call after fn s :
  decode new_parser body = Decoded parser records ->
  get_tool_calls parser = before ++ tool_call :: after ->
  drain_failure before = None ->
  tc_function tool_call = Some fn ->
  fn_arguments fn = Some (JStr s) ->
  json_loads s = DecodeError ->
  let r := stream_kiro_to_anthropic body model request_id in
  let k := List.length (inline_tool_calls records) + List.length before in
  exists index,
    (index = k \/ index = k + 1) /\
    In (ContentBlockStart index
          (ToolUse (mk_tool_use_id (time_ms k) k) (get_or "" (fn_name fn))
             (JDict []))) (fst r) /\
    In (ContentBlockStop index) (fst r).
Proof.
  intros D G B F A L. cbv zeta.
  rewrite (stream_of_decoded _ _ _ D). cbv zeta. cbn [fst snd].
  pose proof (handle_events_effect (effective_request_id request_id) model
                records initial_stream_state) as E.
  destruct (handle_events _ model initial_stream_state records) as [st out].
  cbn [fst snd] in E |- *. destruct E as (E1 & _). simpl in E1.
  rewrite finish_shape, G. cbn [fst snd].
  assert (decode_arguments tool_call = inl (JDict [])) as DA.
  { unfold decode_arguments. rewrite F. cbn [get_or]. rewrite A.
    cbn [get_or]. now rewrite L. }
  pose proof (emit_parser_tool_calls_nth before tool_call after st B DA) as N.
  destruct (emit_parser_tool_calls (before ++ tool_call :: after) st)
    as [[st1 tools] failure].
  cbn [fst snd] in N |- *. cbv zeta in N.
  rewrite F, E1 in N. simpl get_or in N. destruct N as [N1 N2].
  exists (List.length (inline_tool_calls records) + List.length before
          + (if str_truthy (accumulated_text st) then 1 else 0)).
  split.
  - destruct (str_truthy (accumulated_text st)); lia.
  - rewrite !in_app_iff. auto 6.
Qed.

(** C8, at a reported call whose argument text makes json.loads raise
    something else than JSONDecodeError or ValueError (the RecursionError
    of a text nested too deeply): the exception is not caught by lines
    211-213, the translation raises it after one error frame, without
    message_delta or message_stop, and neither this call nor those after
    it are opened as tool-use blocks. *)
Theorem C8_uncaught_loads_error_raises
    body model request_id parser records before tool_call after fn s message :
  decode new_parser body = Decoded parser records ->
  get_tool_calls parser = before ++ tool_call :: after ->
  drain_failure before = None ->
  tc_function tool_call = Some fn ->
  fn_arguments fn = Some (JStr s) ->
  json_loads s = LoadsRaised message ->
  let r := stream_kiro_to_anthropic body model request_id in
  snd r = Raised message /\
  (exists pre,
     fst r = pre ++ [ErrorEvent message] /\
     forall f, In f pre -> closes_stream f = false) /\
  List.length (tool_start_indices (fst r)) =
    List.length (inline_tool_calls records) + List.length before.
Proof.
  intros D G B F A L. cbv zeta.
  assert (decode_arguments tool_call = inr message) as DA.
  { unfold decode_arguments. rewrite F. cbn [get_or]. rewrite A.
    cbn [get_or]. now rewrite L. }
  assert (drain_failure (get_tool_calls parser) = Some message) as DF.
  { rewrite G, drain_failure_app, B. simpl. now rewrite DA. }
  rewrite (stream_of_decoded _ _ _ D). cbv zeta.
  pose proof (handle_events_effect (effective_request_id request_id) model
                records initial_stream_state) as E.
  pose proof (handle_events_frames (effective_request_id request_id) model
                records initial_stream_state) as H.
  destruct (handle_events _ model initial_stream_state records) as [st out].
  cbn [fst snd] in E, H |- *. destruct E as (E1 & _ & _ & E4).
  simpl in E1, E4.
  rewrite finish_shape, DF. cbn [fst snd error_frames outcome_of].
  pose proof (emit_parser_tool_calls_tool_indices (get_tool_calls parser) st)
    as I.
  pose proof (emit_parser_tool_calls_frames (get_tool_calls parser) st) as T.
  destruct (emit_parser_tool_calls (get_tool_calls parser) st)
    as [[st1 tools] failure].
  cbn [fst snd] in I, T |- *.
  rewrite G, (parser_blocks_stop_at_failure _ _ _ _ B DA) in I.
  rewrite app_nil_r.
  split; [reflexivity|]. split.
  - exists (out ++ (if str_truthy (accumulated_text st)
                    then [ContentBlockStop 0] else []) ++ tools).
    split; [now rewrite <- !app_assoc|].
    intros f. rewrite !in_app_iff. intros [X|[X|X]].
    + now apply H.
    + destruct (str_truthy (accumulated_text st)); simpl in X;
        [destruct X as [<-|[]]; reflexivity|destruct X].
    + apply tool_frames_do_not_close. auto.
  - rewrite !tool_start_indices_app, E4, I, !length_app, !length_seq.
    destruct (str_truthy (accumulated_text st)); simpl; lia.
Qed.

(** C9: a content record in whose text the extractor finds a marker adds
    no plain text. In the emitter the accumulated text is the same
    before and after the record and none of the frames yielded for it is
    a content_block_delta; in the collector the accumulated text is the
    same before and after the record. *)
Theorem C9_marker_record_adds_no_text request_id model data :
  parse_bracket_tool_calls (get_or "" data) <> [] ->
  (forall st,
     let r := handle_event request_id model st (Content data) in
     accumulated_text (fst r) = accumulated_text st /\
     forall f, In f (snd r) -> is_delta_frame f = false) /\
  (forall st,
     c_accumulated_text (collect_event st (Content data)) =
     c_accumulated_text st).
Proof.
  intros M.
  assert (list_truthy (parse_bracket_tool_calls (get_or "" data)) = true)
    as T by (destruct (parse_bracket_tool_calls (get_or "" data));
             [contradiction|reflexivity]).
  split; intros st; simpl; rewrite T; [|reflexivity].
  pose proof (emit_message_start_state request_id model st) as S.
  unfold emit_message_start in S |- *.
  destruct (message_started st);
    cbn [fst snd] in S; destruct S as (S1 & _);
    match goal with
    | |- context [emit_bracket_calls ?l ?s] =>
        pose proof (emit_bracket_calls_state l s) as B;
        pose proof (emit_bracket_calls_frames l s) as F;
        destruct (emit_bracket_calls l s) as [st2 out2]
    end;
    cbn [fst snd] in B, F |- *; destruct B as (B1 & _);
    (split; [congruence|]);
    intros f; rewrite in_app_iff; intros [H|H];
    try (simpl in H; destruct H as [<-|[]]; reflexivity);
    try (destruct H);
    destruct (F f H) as [(k & id & name & input & ->)|(k & ->)];
    reflexivity.
Qed.

(* ================================================================ *)
(** ** What each step of the collector changes *)

Lemma count_tool_use_app xs ys :
  count_tool_use (xs ++ ys) = count_tool_use xs + count_tool_use ys.
Proof. unfold count_tool_use. now rewrite filter_app, length_app. Qed.

Lemma existsb_count_tool_use blocks :
  existsb is_tool_use blocks = list_truthy (filter is_tool_use blocks).
Proof.
  induction blocks as [|b blocks IH]; simpl; [reflexivity|].
  destruct (is_tool_use b); simpl; [reflexivity|assumption].
Qed.

Lemma append_bracket_calls_count tool_calls : forall blocks,
  count_tool_use (append_bracket_calls tool_calls blocks) =
  count_tool_use blocks + List.length tool_calls.
Proof.
  induction tool_calls as [|tc rest IH]; intros blocks; simpl.
  - lia.
  - rewrite IH, count_tool_use_app. unfold count_tool_use at 2. simpl. lia.
Qed.

Lemma collect_event_effect st ev :
  let st1 := collect_event st ev in
  count_tool_use (content_blocks st1) =
    count_tool_use (content_blocks st) + List.length (event_tool_calls ev) /\
  (c_input_tokens st1, c_output_tokens st1) =
    match ev with
    | Metadata md => read_usage md
    | _ => (c_input_tokens st, c_output_tokens st)
    end /\
  stop_reason st1 =
    if list_truthy (event_tool_calls ev) then "tool_use" else stop_reason st.
Proof.
  destruct ev as [data|md|ty]; simpl.
  - destruct (parse_bracket_tool_calls (get_or "" data)) as [|tc rest] eqn:T;
      cbn [list_truthy content_blocks c_input_tokens c_output_tokens
           stop_reason].
    + simpl. repeat split; lia.
    + rewrite append_bracket_calls_count. repeat split.
  - unfold read_usage. simpl. repeat split; lia.
  - repeat split; lia.
Qed.

Lemma collect_events_effect records : forall st,
  let st1 := collect_events st records in
  count_tool_use (content_blocks st1) =
    count_tool_use (content_blocks st)
    + List.length (inline_tool_calls records) /\
  (c_input_tokens st1, c_output_tokens st1) =
    match last_metadata records with
    | Some md => reported_usage (Some md)
    | None => (c_input_tokens st, c_output_tokens st)
    end /\
  stop_reason st1 =
    if list_truthy (inline_tool_calls records)
    then "tool_use" else stop_reason st.
Proof.
  induction records as [|ev rest IH]; intros st.
  - simpl. repeat split; lia.
  - pose proof (collect_event_effect st ev) as E.
    specialize (IH (collect_event st ev)).
    cbv zeta in E, IH |- *. change (collect_events st (ev :: rest))
      with (collect_events (collect_event st ev) rest).
    destruct E as (E1 & E2 & E3). destruct IH as (I1 & I2 & I3).
    simpl inline_tool_calls. simpl last_metadata.
    rewrite length_app, I1, I2, I3, E1, E3.
    repeat split.
    + lia.
    + destruct (last_metadata rest); [reflexivity|].
      rewrite E2. destruct ev; try reflexivity. apply read_usage_reported.
    + destruct (event_tool_calls ev), (inline_tool_calls rest); reflexivity.
Qed.

(** C6: when the collector returns, the stop reason of the object is
    "tool_use" if its content list holds a tool-use block and "end_turn"
    if it holds none; so it is "tool_use" exactly when a tool-use block
    is present. *)
Theorem C6_collect_stop_reason body model request_id parser records :
  decode new_parser body = Decoded parser records ->
  exists m,
    collect_anthropic_response body model request_id = inl m /\
    resp_stop_reason m =
      (if existsb is_tool_use (resp_content m)
       then "tool_use" else "end_turn") /\
    (resp_stop_reason m = "tool_use" <->
     exists id name input, In (ToolUse id name input) (resp_content m)).
Proof.
  intros D. rewrite (collect_of_decoded _ _ _ D).
  eexists. split; [reflexivity|].
  pose proof (collect_events_effect records initial_collect_state) as E.
  cbv zeta in E. destruct E as (E1 & _ & E3).
  set (st := collect_events initial_collect_state records) in E1, E3 |- *.
  simpl in E1, E3.
  assert (existsb is_tool_use
            (resp_content
               (build_response (effective_request_id request_id) model st))
          = list_truthy (inline_tool_calls records)) as X.
  { unfold build_response. cbn [resp_content].
    assert (existsb is_tool_use (content_blocks st) =
            list_truthy (inline_tool_calls records)) as Y.
    { rewrite existsb_count_tool_use. unfold count_tool_use in E1.
      destruct (filter is_tool_use (content_blocks st)),
               (inline_tool_calls records); simpl in E1 |- *;
        try reflexivity; discriminate. }
    destruct (str_truthy (c_accumulated_text st)); simpl; exact Y. }
  assert (resp_stop_reason
            (build_response (effective_request_id request_id) model st) =
          if existsb is_tool_use
               (resp_content
                  (build_response (effective_request_id request_id) model
                     st))
          then "tool_use" else "end_turn") as R.
  { rewrite X. exact E3. }
  split; [exact R|].
  rewrite R. split.
  - destruct (existsb is_tool_use _) eqn:Ex; [|discriminate].
    intros _. apply existsb_exists in Ex. destruct Ex as (b & Hin & Hb).
    destruct b as [t|id name input]; [discriminate|]. eauto.
  - intros (id & name & input & Hin).
    assert (existsb is_tool_use
              (resp_content
                 (build_response (effective_request_id request_id) model
                    st)) = true) as ->; [|reflexivity].
    apply existsb_exists. eexists. split; [exact Hin|reflexivity].
Qed.


(* ================================================================ *)
(** ** Streams without text, and block indices *)

Lemma handle_events_without_text request_id model records : forall st,
  (forall data, In (Content data) records -> get_or "" data = "") ->
  inline_tool_calls records = [] ->
  let r := handle_events request_id model st records in
  snd r =
    (if negb (message_started st) && existsb is_content records
     then [MessageStart request_id model] else []) /\
  accumulated_text (fst r) = accumulated_text st.
Proof.
  induction records as [|ev rest IH]; intros st N T; cbv zeta.
  - simpl. now rewrite andb_false_r.
  - simpl in T. apply app_eq_nil in T. destruct T as [T1 T2].
    assert (forall data, In (Content data) rest -> get_or "" data = "")
      as N' by (intros data H; apply N; now right).
    destruct ev as [data|md|ty].
    + assert (get_or "" data = "") as G by (apply N; now left).
      simpl in T1. cbn [handle_events handle_event]. rewrite G in T1 |- *.
      rewrite T1. cbn [list_truthy emit_text str_truthy].
      pose proof (emit_message_start_state request_id model st) as M.
      unfold emit_message_start in M |- *.
      destruct (message_started st); cbn [fst snd] in M;
        destruct M as (M1 & _ & _ & _ & _ & M6);
        match goal with
        | |- context [handle_events _ _ ?s rest] =>
            specialize (IH s N' T2); cbv zeta in IH;
            destruct (handle_events request_id model s rest) as [st2 out2]
        end;
        cbn [fst snd] in IH |- *; destruct IH as [I1 I2];
        rewrite ?M6 in I1; simpl in I1; subst out2;
        split; try reflexivity; congruence.
    + cbn [handle_events handle_event]. destruct (read_usage md) as [i o].
      match goal with
      | |- context [handle_events _ _ ?s rest] =>
          specialize (IH s N' T2); cbv zeta in IH;
          destruct (handle_events request_id model s rest) as [st2 out2]
      end.
      cbn [fst snd existsb is_content orb message_started accumulated_text]
        in IH |- *. exact IH.
    + cbn [handle_events handle_event].
      specialize (IH st N' T2). cbv zeta in IH.
      destruct (handle_events request_id model st rest) as [st2 out2].
      cbn [fst snd existsb is_content orb] in IH |- *. exact IH.
Qed.

(** The three frames, when a content record arrives: if at least one
    content record is decoded, no content record carries text, no inline
    marker is found and the decoder reports no tool call, the emitter
    yields exactly message_start, message_delta (end_turn) and
    message_stop, and ends normally. *)
Theorem C4_three_frames_after_content
    body model request_id parser records :
  decode new_parser body = Decoded parser records ->
  (forall data, In (Content data) records -> get_or "" data = "") ->
  inline_tool_calls records = [] ->
  get_tool_calls parser = [] ->
  (exists data, In (Content data) records) ->
  stream_kiro_to_anthropic body model request_id =
  ([MessageStart (effective_request_id request_id) model;
    MessageDelta "end_turn" (snd (reported_usage (last_metadata records)));
    MessageStop],
   Completed).
Proof.
  intros D N T G (data & C).
  rewrite (stream_of_decoded _ _ _ D), G.
  pose proof (handle_events_without_text (effective_request_id request_id)
                model records initial_stream_state N T) as Q.
  pose proof (handle_events_effect (effective_request_id request_id) model
                records initial_stream_state) as E.
  destruct (handle_events _ model initial_stream_state records) as [st out].
  cbv zeta in Q, E |- *. cbn [fst snd] in Q, E |- *.
  destruct Q as [Q1 Q2]. destruct E as (_ & E2 & E3 & _).
  rewrite T in E2. simpl in E2, Q1, Q2.
  assert (existsb is_content records = true) as X.
  { apply existsb_exists. exists (Content data). auto. }
  rewrite X in Q1. subst out.
  unfold finish. rewrite Q2.
  assert (tool_uses st = []) as U
    by (destruct (tool_uses st); [reflexivity|discriminate]).
  cbn [list_truthy str_truthy fst snd app output_tokens].
  assert (output_tokens st = snd (input_tokens st, output_tokens st))
    as -> by reflexivity.
  rewrite E3, U. now destruct (last_metadata records).
Qed.

Lemma no_content_no_inline_tool_calls records :
  existsb is_content records = false -> inline_tool_calls records = [].
Proof.
  induction records as [|ev rest IH]; simpl; [reflexivity|].
  destruct ev; simpl; try discriminate; exact IH.
Qed.

(** C4, at a body without any content record: when no content record is
    decoded and the decoder reports no tool call (so no record contains
    text and no tool invocation occurs), the emitter yields message_delta
    (end_turn) and message_stop only: message_start, which lines 94-116
    yield inside the branch of content records, is never yielded, while
    the closing frames of lines 253-276 are. *)
Theorem C4_no_content_record_no_message_start
    body model request_id parser records :
  decode new_parser body = Decoded parser records ->
  existsb is_content records = false ->
  get_tool_calls parser = [] ->
  let r := stream_kiro_to_anthropic body model request_id in
  r = ([MessageDelta "end_turn"
          (snd (reported_usage (last_metadata records)));
        MessageStop],
       Completed) /\
  ~ (exists id model' reason tokens,
       fst r = [MessageStart id model'; MessageDelta reason tokens;
                MessageStop]).
Proof.
  intros D X G. cbv zeta.
  assert (stream_kiro_to_anthropic body model request_id =
          ([MessageDelta "end_turn"
              (snd (reported_usage (last_metadata records)));
            MessageStop],
           Completed)) as R.
  { pose proof (no_content_no_inline_tool_calls records X) as T.
    assert (forall data, In (Content data) records -> get_or "" data = "")
      as N.
    { intros data H.
      assert (existsb is_content records = true) as Y
        by (apply existsb_exists; exists (Content data); auto).
      rewrite X in Y. discriminate. }
    rewrite (stream_of_decoded _ _ _ D), G.
    pose proof (handle_events_without_text (effective_request_id request_id)
                  model records initial_stream_state N T) as Q.
    pose proof (handle_events_effect (effective_request_id request_id) model
                  records initial_stream_state) as E.
    destruct (handle_events _ model initial_stream_state records)
      as [st out].
    cbv zeta in Q, E |- *. cbn [fst snd] in Q, E |- *.
    destruct Q as [Q1 Q2]. destruct E as (_ & E2 & E3 & _).
    rewrite T in E2. simpl in E2, Q1, Q2.
    rewrite X in Q1. subst out.
    unfold finish. rewrite Q2.
    assert (tool_uses st = []) as U
      by (destruct (tool_uses st); [reflexivity|discriminate]).
    cbn [list_truthy str_truthy fst snd app output_tokens error_frames
         outcome_of].
    assert (output_tokens st = snd (input_tokens st, output_tokens st))
      as -> by reflexivity.
    rewrite E3, U. now destruct (last_metadata records). }
  rewrite R. split; [reflexivity|].
  intros (id & model' & reason & tokens & H). discriminate.
Qed.

(** Which part of the index discipline the emitter keeps: the tool-use
    blocks of a stream whose body decodes to the end open at 0, 1, .. for
    the inline calls and then, after a shift of at most one, at successive
    indices for the calls the decoder reports (up to the first whose
    conversion raises); so among themselves they increase. *)
Lemma stream_tool_start_indices body model request_id parser records :
  decode new_parser body = Decoded parser records ->
  exists shift,
    shift <= 1 /\
    tool_start_indices (fst (stream_kiro_to_anthropic body model request_id))
    = seq 0 (List.length (inline_tool_calls records))
      ++ seq (List.length (inline_tool_calls records) + shift)
             (List.length
                (parser_blocks (List.length (inline_tool_calls records))
                   (get_tool_calls parser))).
Proof.
  intros D. rewrite (stream_of_decoded _ _ _ D). cbv zeta. cbn [fst].
  pose proof (handle_events_effect (effective_request_id request_id) model
                records initial_stream_state) as E.
  destruct (handle_events _ model initial_stream_state records) as [st out].
  cbn [fst snd] in E |- *. destruct E as (E1 & _ & _ & E4). simpl in E1, E4.
  rewrite finish_shape. cbn [fst snd].
  pose proof (emit_parser_tool_calls_tool_indices (get_tool_calls parser) st)
    as I.
  destruct (emit_parser_tool_calls (get_tool_calls parser) st)
    as [[st1 tools] failure].
  cbn [fst snd] in I |- *.
  exists (if str_truthy (accumulated_text st) then 1 else 0). split.
  - destruct (str_truthy (accumulated_text st)); lia.
  - rewrite !tool_start_indices_app, E4, I, E1.
    destruct (drain_failure (get_tool_calls parser)),
             (str_truthy (accumulated_text st)); simpl;
      now rewrite ?app_nil_r.
Qed.

(** C1, at a text record followed by a record with one inline marker:
    the text block is opened at index 0, and while it is open the
    tool-use block is opened and closed at index 0 as well, so the list
    of opened block indices has a repetition. *)
Theorem C1_inline_tool_reuses_text_index
    body model request_id parser text marked tc :
  decode new_parser body =
    Decoded parser [Content (Some text); Content (Some marked)] ->
  get_tool_calls parser = [] ->
  str_truthy text = true ->
  parse_bracket_tool_calls text = [] ->
  parse_bracket_tool_calls marked = [tc] ->
  let r := stream_kiro_to_anthropic body model request_id in
  r = ([MessageStart (effective_request_id request_id) model;
        ContentBlockStart 0 (TextBlock "");
        ContentBlockDelta 0 text;
        ContentBlockStart 0
          (ToolUse (mk_tool_use_id (time_ms 0) 0) (get_or "" (bc_name tc))
             (get_or (JDict []) (bc_arguments tc)));
        ContentBlockStop 0;
        ContentBlockStop 0;
        MessageDelta "tool_use" 0%Z;
        MessageStop],
       Completed) /\
  block_start_indices (fst r) = [0; 0] /\
  ~ NoDup (block_start_indices (fst r)).
Proof.
  intros D G X T M. cbv zeta.
  rewrite (stream_of_decoded _ _ _ D), G.
  destruct text as [|c text]; [discriminate|].
  unfold handle_events, handle_event, emit_message_start, finish.
  cbv zeta.
  cbn [get_or initial_stream_state message_started].
  rewrite T, M. unfold emit_text. cbn.
  split; [reflexivity|]. split; [reflexivity|].
  cbn. intros ND. inversion ND as [|? ? H _]. apply H. now left.
Qed.

(** C3, at a body for which the decoder reports a tool call at the end:
    the emitter opens a tool-use block for every inline call and for
    every call the decoder reports, the collector's content list holds a
    tool-use block for the inline calls only; the collector never asks
    the decoder, so its content list is short of the reported calls.
    (The stream is one that completes.) *)
Theorem C3_collector_omits_reported_tool_calls
    body model request_id parser records tool_call rest :
  decode new_parser body = Decoded parser records ->
  get_tool_calls parser = tool_call :: rest ->
  snd (stream_kiro_to_anthropic body model request_id) = Completed ->
  exists m,
    collect_anthropic_response body model request_id = inl m /\
    count_tool_use (resp_content m) =
      List.length (inline_tool_calls records) /\
    List.length
      (tool_start_indices
         (fst (stream_kiro_to_anthropic body model request_id))) =
      List.length (inline_tool_calls records) + S (List.length rest) /\
    count_tool_use (resp_content m) <
    List.length
      (tool_start_indices
         (fst (stream_kiro_to_anthropic body model request_id))).
Proof.
  intros D G C0.
  rewrite (stream_outcome _ _ _ D) in C0. apply outcome_of_completed in C0.
  destruct (stream_tool_start_indices _ model request_id D)
    as (shift & _ & I).
  rewrite I, length_app, !length_seq, (parser_blocks_length _ _ C0), G.
  rewrite (collect_of_decoded _ _ _ D). eexists. split; [reflexivity|].
  pose proof (collect_events_effect records initial_collect_state) as E.
  cbv zeta in E. destruct E as (E1 & _).
  assert (count_tool_use
            (resp_content
               (build_response (effective_request_id request_id) model
                  (collect_events initial_collect_state records))) =
          List.length (inline_tool_calls records)) as C.
  { unfold build_response. cbn [resp_content].
    destruct (str_truthy _); [unfold count_tool_use in E1 |- *; simpl|];
      exact E1. }
  rewrite C. simpl. repeat split; lia.
Qed.

(* ================================================================ *)
(** ** Closed forms of the two loops *)

Lemma str_append_nil_r (s : string) : (s ++ "")%string = s.
Proof. induction s as [|c s IH]; simpl; [reflexivity|now rewrite IH]. Qed.

Lemma str_append_assoc (a b c : string) :
  ((a ++ b) ++ c)%string = (a ++ (b ++ c))%string.
Proof. induction a as [|x a IH]; simpl; [reflexivity|now rewrite IH]. Qed.

Lemma str_truthy_append (a b : string) :
  str_truthy (a ++ b) = str_truthy a || str_truthy b.
Proof. destruct a; reflexivity. Qed.

Lemma str_truthy_false (s : string) : str_truthy s = false -> s = "".
Proof. destruct s; [reflexivity|discriminate]. Qed.

Lemma deltas_app xs ys : deltas (xs ++ ys) = deltas xs ++ deltas ys.
Proof. unfold deltas. apply flat_map_app. Qed.

Lemma opened_tool_blocks_app xs ys :
  opened_tool_blocks (xs ++ ys) =
  opened_tool_blocks xs ++ opened_tool_blocks ys.
Proof. unfold opened_tool_blocks. apply flat_map_app. Qed.

Lemma block_start_indices_app xs ys :
  block_start_indices (xs ++ ys) =
  block_start_indices xs ++ block_start_indices ys.
Proof. unfold block_start_indices. apply flat_map_app. Qed.

Lemma block_stop_indices_app xs ys :
  block_stop_indices (xs ++ ys) =
  block_stop_indices xs ++ block_stop_indices ys.
Proof. unfold block_stop_indices. apply flat_map_app. Qed.

Lemma bracket_blocks_app xs : forall k ys,
  bracket_blocks k (xs ++ ys) =
  bracket_blocks k xs ++ bracket_blocks (k + List.length xs) ys.
Proof.
  induction xs as [|x xs IH]; intros k ys; simpl.
  - now rewrite Nat.add_0_r.
  - now rewrite IH, <- plus_n_Sm.
Qed.

Lemma bracket_blocks_length tool_calls : forall k,
  List.length (bracket_blocks k tool_calls) = List.length tool_calls.
Proof.
  induction tool_calls as [|tc rest IH]; intros k; simpl;
    [reflexivity|now rewrite IH].
Qed.

(** The frames of the inline calls of one record. *)
Lemma emit_bracket_calls_closed tool_calls : forall st,
  let out := snd (emit_bracket_calls tool_calls st) in
  deltas out = [] /\
  opened_tool_blocks out = bracket_blocks (current_tool_index st) tool_calls /\
  filter is_message_start out = [] /\
  block_start_indices out = block_stop_indices out /\
  (forall tail, tool_pairs_atomic (out ++ tail) = tool_pairs_atomic tail).
Proof.
  induction tool_calls as [|tc rest IH]; intros st; simpl.
  - repeat split.
  - match goal with
    | |- context [emit_bracket_calls rest ?s] =>
        specialize (IH s); destruct (emit_bracket_calls rest s) as [st2 out]
    end.
    simpl in IH |- *. destruct IH as (A & B & C & D & E).
    rewrite A, B, C, D. repeat split.
    intros tail. now rewrite Nat.eqb_refl, E.
Qed.

(** The frames of the calls the decoder reports. *)
Lemma emit_parser_tool_calls_closed parser_tool_calls : forall st,
  let out := snd (fst (emit_parser_tool_calls parser_tool_calls st)) in
  deltas out = [] /\
  opened_tool_blocks out =
    parser_blocks (current_tool_index st) parser_tool_calls /\
  filter is_message_start out = [] /\
  block_start_indices out = block_stop_indices out /\
  (forall tail, tool_pairs_atomic (out ++ tail) = tool_pairs_atomic tail).
Proof.
  induction parser_tool_calls as [|tc rest IH]; intros st; simpl.
  - repeat split.
  - step_drain IH rest tc; [|repeat split].
    simpl in IH |- *. destruct IH as (A & B & C & D & E).
    rewrite A, B, C, D. repeat split.
    intros tail. now rewrite Nat.eqb_refl, E.
Qed.

(** One record, in closed form: the text it adds, its delta, the tool-use
    blocks it opens, and the pairing of their frames. *)
Lemma handle_event_closed request_id model st ev :
  let r := handle_event request_id model st ev in
  accumulated_text (fst r) = (accumulated_text st ++ plain_text ev)%string /\
  deltas (snd r) =
    (if str_truthy (plain_text ev) then [(0, plain_text ev)] else []) /\
  opened_tool_blocks (snd r) =
    bracket_blocks (current_tool_index st) (event_tool_calls ev) /\
  (forall tail, tool_pairs_atomic (snd r ++ tail) = tool_pairs_atomic tail).
Proof.
  destruct ev as [data|md|ty]; simpl.
  - pose proof (emit_message_start_state request_id model st) as M.
    assert (forall tail,
              tool_pairs_atomic
                (snd (emit_message_start request_id model st) ++ tail) =
              tool_pairs_atomic tail) as MA
      by (intros tail; unfold emit_message_start;
          destruct (message_started st); reflexivity).
    assert (deltas (snd (emit_message_start request_id model st)) = [] /\
            opened_tool_blocks
              (snd (emit_message_start request_id model st)) = []) as [MD MO]
      by (unfold emit_message_start; destruct (message_started st);
          split; reflexivity).
    destruct (emit_message_start request_id model st) as [st1 out1].
    cbn [fst snd] in M, MA, MD, MO. destruct M as (M1 & M2 & _).
    destruct (list_truthy (parse_bracket_tool_calls (get_or "" data))) eqn:T.
    + pose proof (emit_bracket_calls_state
                    (parse_bracket_tool_calls (get_or "" data)) st1) as B.
      pose proof (emit_bracket_calls_closed
                    (parse_bracket_tool_calls (get_or "" data)) st1) as C.
      destruct (emit_bracket_calls _ st1) as [st2 out2].
      cbn [fst snd] in B, C |- *. destruct B as (B1 & _).
      destruct C as (C1 & C2 & _ & _ & C5).
      rewrite deltas_app, opened_tool_blocks_app, MD, MO, C1, C2, B1, M1, M2.
      rewrite str_append_nil_r. repeat split.
      intros tail. now rewrite <- app_assoc, MA, C5.
    + rewrite (list_truthy_false _ T). unfold emit_text.
      destruct (str_truthy (get_or "" data)) eqn:X.
      * destruct (str_truthy (accumulated_text st1));
          cbn [fst snd accumulated_text];
          rewrite deltas_app, opened_tool_blocks_app, MD, MO, M1;
          repeat split; intros tail; now rewrite <- app_assoc, MA.
      * cbn [fst snd]. rewrite (str_truthy_false _ X), app_nil_r, MD, MO, M1.
        rewrite str_append_nil_r. repeat split. intros tail. apply MA.
  - destruct (read_usage md). simpl. rewrite str_append_nil_r. repeat split.
  - rewrite str_append_nil_r. repeat split.
Qed.

(** A run of records, in closed form. *)
Lemma handle_events_closed request_id model records : forall st,
  let r := handle_events request_id model st records in
  accumulated_text (fst r) =
    (accumulated_text st ++ join (map plain_text records))%string /\
  deltas (snd r) =
    map (fun text => (0, text)) (filter str_truthy (map plain_text records)) /\
  opened_tool_blocks (snd r) =
    bracket_blocks (current_tool_index st) (inline_tool_calls records) /\
  (forall tail, tool_pairs_atomic (snd r ++ tail) = tool_pairs_atomic tail).
Proof.
  induction records as [|ev rest IH]; intros st; simpl.
  - rewrite str_append_nil_r. repeat split.
  - pose proof (handle_event_closed request_id model st ev) as E.
    pose proof (handle_event_effect request_id model st ev) as F.
    destruct (handle_event request_id model st ev) as [st1 out1].
    specialize (IH st1).
    destruct (handle_events request_id model st1 rest) as [st2 out2].
    cbn [fst snd] in E, F, IH |- *.
    destruct E as (E1 & E2 & E3 & E4). destruct F as (F1 & _).
    destruct IH as (I1 & I2 & I3 & I4).
    rewrite deltas_app, opened_tool_blocks_app, bracket_blocks_app.
    rewrite I1, I2, I3, E1, E2, E3, F1, str_append_assoc.
    repeat split.
    + destruct (str_truthy (plain_text ev)); reflexivity.
    + intros tail. now rewrite <- app_assoc, E4, I4.
Qed.

Lemma append_bracket_calls_closed tool_calls : forall blocks,
  append_bracket_calls tool_calls blocks =
  blocks ++ bracket_blocks (List.length blocks) tool_calls.
Proof.
  induction tool_calls as [|tc rest IH]; intros blocks; simpl.
  - now rewrite app_nil_r.
  - rewrite IH, length_app, <- app_assoc. simpl.
    now rewrite Nat.add_1_r.
Qed.

Lemma collect_event_closed st ev :
  let st1 := collect_event st ev in
  c_accumulated_text st1 = (c_accumulated_text st ++ plain_text ev)%string /\
  content_blocks st1 =
    content_blocks st
    ++ bracket_blocks (List.length (content_blocks st)) (event_tool_calls ev).
Proof.
  destruct ev as [data|md|ty]; simpl.
  - destruct (list_truthy (parse_bracket_tool_calls (get_or "" data))) eqn:T;
      cbn [c_accumulated_text content_blocks].
    + now rewrite str_append_nil_r, append_bracket_calls_closed.
    + rewrite (list_truthy_false _ T). simpl. now rewrite app_nil_r.
  - destruct (read_usage md). simpl.
    now rewrite str_append_nil_r, app_nil_r.
  - now rewrite str_append_nil_r, app_nil_r.
Qed.

(** The collector's loop, in closed form. *)
Lemma collect_events_closed records : forall st,
  let st1 := collect_events st records in
  c_accumulated_text st1 =
    (c_accumulated_text st ++ join (map plain_text records))%string /\
  content_blocks st1 =
    content_blocks st
    ++ bracket_blocks (List.length (content_blocks st))
         (inline_tool_calls records).
Proof.
  induction records as [|ev rest IH]; intros st.
  - simpl. now rewrite str_append_nil_r, app_nil_r.
  - pose proof (collect_event_closed st ev) as E.
    specialize (IH (collect_event st ev)).
    cbv zeta in E, IH |- *.
    change (collect_events st (ev :: rest))
      with (collect_events (collect_event st ev) rest).
    destruct E as (E1 & E2). destruct IH as (I1 & I2).
    rewrite I1, I2, E1, E2. simpl map. simpl inline_tool_calls.
    rewrite bracket_blocks_app, length_app, bracket_blocks_length.
    cbn [join fold_right].
    now rewrite str_append_assoc, <- app_assoc.
Qed.

(** The frames that follow the loop, in closed form. *)
Lemma finish_closed st parser_tool_calls :
  let f := finish st parser_tool_calls in
  let out := snd (fst f) ++ error_frames (snd f) in
  deltas out = [] /\
  opened_tool_blocks out =
    parser_blocks (current_tool_index st) parser_tool_calls /\
  filter is_message_start out = [] /\
  Permutation
    (block_start_indices out
     ++ (if str_truthy (accumulated_text st) then [0] else []))
    (block_stop_indices out) /\
  tool_pairs_atomic out = true.
Proof.
  cbv zeta. rewrite finish_shape. cbn [fst snd].
  pose proof (emit_parser_tool_calls_closed parser_tool_calls st) as C.
  destruct (emit_parser_tool_calls parser_tool_calls st)
    as [[st1 tools] failure].
  cbn [fst snd] in C |- *. destruct C as (C1 & C2 & C3 & C4 & C5).
  rewrite !deltas_app, !opened_tool_blocks_app, !filter_app,
    !block_start_indices_app, !block_stop_indices_app, C1, C2, C3, C4.
  destruct (drain_failure parser_tool_calls),
           (str_truthy (accumulated_text st));
    cbn [app error_frames tool_pairs_atomic block_start_indices
         block_stop_indices flat_map];
    rewrite <- ?app_assoc, ?C5, ?app_nil_r; repeat split;
    try apply Permutation_refl;
    change (0 :: block_stop_indices tools)
      with ([0] ++ block_stop_indices tools);
    apply Permutation_app_comm.
Qed.

(** The text block that is open in a state, as a list of open indices. *)
Lemma handle_event_balance request_id model st ev :
  let r := handle_event request_id model st ev in
  Permutation
    (block_start_indices (snd r)
     ++ (if str_truthy (accumulated_text st) then [0] else []))
    (block_stop_indices (snd r)
     ++ (if str_truthy (accumulated_text (fst r)) then [0] else [])).
Proof.
  destruct ev as [data|md|ty]; simpl; try apply Permutation_refl.
  (* a content record *)
  - pose proof (emit_message_start_state request_id model st) as M.
    assert (block_start_indices
              (snd (emit_message_start request_id model st)) = [] /\
            block_stop_indices
              (snd (emit_message_start request_id model st)) = []) as [MS MP]
      by (unfold emit_message_start; destruct (message_started st);
          split; reflexivity).
    destruct (emit_message_start request_id model st) as [st1 out1].
    cbn [fst snd] in M, MS, MP. destruct M as (M1 & _).
    destruct (list_truthy (parse_bracket_tool_calls (get_or "" data))).
    + pose proof (emit_bracket_calls_state
                    (parse_bracket_tool_calls (get_or "" data)) st1) as B.
      pose proof (emit_bracket_calls_closed
                    (parse_bracket_tool_calls (get_or "" data)) st1) as C.
      destruct (emit_bracket_calls _ st1) as [st2 out2].
      cbn [fst snd] in B, C |- *. destruct B as (B1 & _).
      destruct C as (_ & _ & _ & C4 & _).
      rewrite block_start_indices_app, block_stop_indices_app, MS, MP, C4,
        B1, M1.
      apply Permutation_refl.
    + unfold emit_text. rewrite <- M1.
      destruct (str_truthy (get_or "" data)) eqn:X.
      * destruct (str_truthy (accumulated_text st1)) eqn:A;
          cbn [fst snd accumulated_text];
          rewrite block_start_indices_app, block_stop_indices_app, MS, MP,
            str_truthy_append, A, X;
          apply Permutation_refl.
      * cbn [fst snd].
        rewrite block_start_indices_app, block_stop_indices_app, MS, MP.
        apply Permutation_refl.
Qed.

Lemma handle_events_balance request_id model records : forall st,
  let r := handle_events request_id model st records in
  Permutation
    (block_start_indices (snd r)
     ++ (if str_truthy (accumulated_text st) then [0] else []))
    (block_stop_indices (snd r)
     ++ (if str_truthy (accumulated_text (fst r)) then [0] else [])).
Proof.
  induction records as [|ev rest IH]; intros st; simpl.
  - apply Permutation_refl.
  - pose proof (handle_event_balance request_id model st ev) as E.
    destruct (handle_event request_id model st ev) as [st1 out1].
    specialize (IH st1).
    destruct (handle_events request_id model st1 rest) as [st2 out2].
    cbn [fst snd] in E, IH |- *.
    rewrite block_start_indices_app, block_stop_indices_app, <- !app_assoc.
    eapply Permutation_trans; [apply Permutation_app_swap_app|].
    eapply Permutation_trans; [apply Permutation_app_head, E|].
    eapply Permutation_trans; [apply Permutation_app_swap_app|].
    apply Permutation_app_head, IH.
Qed.

(** Where [message_start] stands among the frames of one record. *)
Lemma handle_event_message_start request_id model st ev :
  let r := handle_event request_id model st ev in
  message_started (fst r) = message_started st || is_content ev /\
  exists frames,
    snd r =
      (if negb (message_started st) && is_content ev
       then [MessageStart request_id model] else []) ++ frames /\
    filter is_message_start frames = [] /\
    (is_content ev = false -> frames = []).
Proof.
  destruct ev as [data|md|ty]; simpl.
  - pose proof (emit_message_start_state request_id model st) as M.
    assert (snd (emit_message_start request_id model st) =
            if negb (message_started st)
            then [MessageStart request_id model] else []) as MO
      by (unfold emit_message_start; destruct (message_started st);
          reflexivity).
    destruct (emit_message_start request_id model st) as [st1 out1].
    cbn [fst snd] in M, MO. destruct M as (_ & _ & _ & _ & _ & M6).
    rewrite andb_true_r, orb_true_r. subst out1.
    destruct (list_truthy (parse_bracket_tool_calls (get_or "" data))).
    + pose proof (emit_bracket_calls_state
                    (parse_bracket_tool_calls (get_or "" data)) st1) as B.
      pose proof (emit_bracket_calls_closed
                    (parse_bracket_tool_calls (get_or "" data)) st1) as C.
      destruct (emit_bracket_calls _ st1) as [st2 out2].
      cbn [fst snd] in B, C |- *.
      destruct B as (_ & _ & _ & _ & _ & B6).
      destruct C as (_ & _ & C3 & _).
      split; [congruence|]. exists out2. repeat split; [exact C3|discriminate].
    + pose proof (emit_text_state (get_or "" data) st1) as X.
      assert (filter is_message_start
                (snd (emit_text (get_or "" data) st1)) = []) as XF
        by (unfold emit_text; destruct (str_truthy (get_or "" data));
            [destruct (str_truthy (accumulated_text st1))|]; reflexivity).
      destruct (emit_text (get_or "" data) st1) as [st2 out2].
      cbn [fst snd] in X, XF |- *. destruct X as (_ & _ & _ & _ & X5).
      split; [congruence|]. exists out2. repeat split; [exact XF|discriminate].
  - destruct (read_usage md). simpl. rewrite andb_false_r, orb_false_r.
    split; [reflexivity|]. exists []. repeat split.
  - rewrite andb_false_r, orb_false_r.
    split; [reflexivity|]. exists []. repeat split.
Qed.

(** Where [message_start] stands among the frames of a run of records. *)
Lemma handle_events_message_start request_id model records : forall st,
  let r := handle_events request_id model st records in
  filter is_message_start (snd r) =
    (if negb (message_started st) && existsb is_content records
     then [MessageStart request_id model] else []) /\
  (message_started st = false ->
   existsb is_content records = true ->
   exists rest, snd r = MessageStart request_id model :: rest) /\
  (existsb is_content records = false -> snd r = []).
Proof.
  induction records as [|ev rest IH]; intros st; simpl.
  - rewrite andb_false_r. repeat split; discriminate.
  - pose proof (handle_event_message_start request_id model st ev) as E.
    destruct (handle_event request_id model st ev) as [st1 out1].
    specialize (IH st1).
    destruct (handle_events request_id model st1 rest) as [st2 out2].
    cbn [fst snd] in E, IH |- *.
    destruct E as (E1 & frames & E2 & E3 & E4).
    destruct IH as (I1 & I2 & I3). subst out1.
    rewrite !filter_app, E3, I1, E1. cbn [app].
    destruct (message_started st) eqn:S, (is_content ev) eqn:C;
      cbn [negb andb orb app filter is_message_start] in I1, I2, I3 |- *.
    + repeat split; discriminate.
    + repeat split; try discriminate.
      intros H. rewrite (E4 eq_refl), (I3 H). reflexivity.
    + repeat split; try discriminate. eauto.
    + rewrite (E4 eq_refl). cbn [app].
      destruct (existsb is_content rest); repeat split; auto; discriminate.
Qed.

(** What [tool_pairs_atomic] says of each position. *)
Lemma tool_pairs_atomic_at n : forall out before k id name input rest,
  List.length before <= n ->
  tool_pairs_atomic out = true ->
  out = before ++ ContentBlockStart k (ToolUse id name input) :: rest ->
  exists rest', rest = ContentBlockStop k :: rest'.
Proof.
  induction n as [|n IH]; intros out before k id name input rest L A E.
  - destruct before; [|simpl in L; lia]. subst out. simpl in A.
    destruct rest as [|[| | |k'| | |] rest']; try discriminate.
    apply andb_prop in A. destruct A as [A _].
    apply Nat.eqb_eq in A. subst k'. eauto.
  - destruct before as [|f before].
    + apply (IH out [] k id name input rest); [simpl; lia|exact A|exact E].
    + subst out. simpl in L.
      assert (forall tail,
                tool_pairs_atomic tail = true ->
                tail =
                  before ++ ContentBlockStart k (ToolUse id name input) :: rest ->
                exists rest', rest = ContentBlockStop k :: rest') as Next
        by (intros tail T1 T2;
            apply (IH tail before k id name input rest); [lia|exact T1|exact T2]).
      destruct f as [a b|i [t|a b c]|i t|i| | |];
        try (simpl in A; apply (Next _ A eq_refl)).
      cbn [app tool_pairs_atomic] in A.
      destruct before as [|g before].
      * simpl in A. discriminate.
      * simpl in A, L. destruct g; try discriminate.
        apply andb_prop in A. destruct A as [_ A].
        apply (IH (before
                   ++ ContentBlockStart k (ToolUse id name input) :: rest)
                  before k id name input rest);
          [lia|exact A|reflexivity].
Qed.

(* ================================================================ *)
(** ** Further properties of the two translations *)

Lemma join_filter_truthy parts : join (filter str_truthy parts) = join parts.
Proof.
  induction parts as [|s parts IH]; simpl; [reflexivity|].
  destruct s as [|c s]; simpl; [exact IH|now rewrite IH].
Qed.

Lemma map_snd_indexed (texts : list string) :
  map snd (map (fun text => (0, text)) texts) = texts.
Proof.
  induction texts as [|t texts IH]; simpl; [reflexivity|now rewrite IH].
Qed.

Lemma tool_suffixes_app xs ys :
  tool_suffixes (xs ++ ys) = tool_suffixes xs ++ tool_suffixes ys.
Proof. unfold tool_suffixes. apply flat_map_app. Qed.

Lemma tool_suffixes_bracket_blocks tool_calls : forall k,
  tool_suffixes (bracket_blocks k tool_calls) =
  seq k (List.length tool_calls).
Proof.
  induction tool_calls as [|tc rest IH]; intros k; simpl;
    [reflexivity|now rewrite IH].
Qed.

Lemma tool_suffixes_parser_blocks parser_tool_calls : forall k,
  tool_suffixes (parser_blocks k parser_tool_calls) =
  seq k (List.length (parser_blocks k parser_tool_calls)).
Proof.
  induction parser_tool_calls as [|tc rest IH]; intros k; simpl;
    [reflexivity|].
  destruct (decode_arguments tc); [|reflexivity].
  simpl. now rewrite IH.
Qed.

Lemma tool_suffixes_text_block_of text :
  tool_suffixes (text_block_of text) = [].
Proof. unfold text_block_of. destruct (str_truthy text); reflexivity. Qed.

(** The frames of a stream, by how the body decodes. *)
Lemma stream_frames body model request_id :
  fst (stream_kiro_to_anthropic body model request_id) =
  match decode new_parser body with
  | Decoded parser records =>
      snd (handle_events (effective_request_id request_id) model
             initial_stream_state records)
      ++ (snd (fst (finish
                      (fst (handle_events (effective_request_id request_id)
                              model initial_stream_state records))
                      (get_tool_calls parser)))
          ++ error_frames
               (snd (finish
                       (fst (handle_events (effective_request_id request_id)
                               model initial_stream_state records))
                       (get_tool_calls parser))))
  | DecodeFailed records message =>
      snd (handle_events (effective_request_id request_id) model
             initial_stream_state records)
      ++ [ErrorEvent message]
  end.
Proof.
  destruct (decode new_parser body) as [parser records|records message] eqn:D.
  - now rewrite (stream_of_decoded _ _ _ D).
  - now rewrite (stream_of_failed _ _ _ D).
Qed.

(** X1: message_start is yielded exactly when some content record is
    decoded, then exactly once and as the first frame of the stream, and
    it carries the request identifier and the model; a stream without a
    content record has no message_start. This holds whether the stream
    completes or fails. *)
Theorem message_start_once_and_first body model request_id :
  let out := fst (stream_kiro_to_anthropic body model request_id) in
  let records := decoded_records (decode new_parser body) in
  let start := MessageStart (effective_request_id request_id) model in
  filter is_message_start out =
    (if existsb is_content records then [start] else []) /\
  (existsb is_content records = true -> exists rest, out = start :: rest).
Proof.
  cbv zeta. rewrite stream_frames.
  destruct (decode new_parser body) as [parser records|records message];
    cbn [decoded_records];
    pose proof (handle_events_message_start
                  (effective_request_id request_id) model records
                  initial_stream_state) as M;
    destruct (handle_events _ model initial_stream_state records)
      as [st out];
    cbn [fst snd] in M |- *; destruct M as (M1 & M2 & _);
    cbn [initial_stream_state message_started negb andb] in M1, M2;
    rewrite filter_app, M1.
  - pose proof (finish_closed st (get_tool_calls parser)) as F.
    cbv zeta in F. destruct F as (_ & _ & F3 & _).
    rewrite F3, app_nil_r. split; [reflexivity|].
    intros C. destruct (M2 eq_refl C) as (rest & ->). simpl. eauto.
  - simpl. rewrite app_nil_r. split; [reflexivity|].
    intros C. destruct (M2 eq_refl C) as (rest & ->). simpl. eauto.
Qed.

(** X2: the content_block_delta frames of a stream are, in order, the
    non-empty texts of the content records in which the extractor finds
    nothing, each at index 0; no other record produces a delta, and
    nothing is merged, split or reordered. This holds whether the stream
    completes or fails. *)
Theorem deltas_are_the_plain_texts body model request_id :
  deltas (fst (stream_kiro_to_anthropic body model request_id)) =
  map (fun text => (0, text))
    (filter str_truthy
       (map plain_text (decoded_records (decode new_parser body)))).
Proof.
  rewrite stream_frames.
  destruct (decode new_parser body) as [parser records|records message];
    cbn [decoded_records];
    pose proof (handle_events_closed (effective_request_id request_id) model
                  records initial_stream_state) as H;
    destruct (handle_events _ model initial_stream_state records)
      as [st out];
    cbn [fst snd] in H |- *; destruct H as (_ & H2 & _);
    rewrite deltas_app, H2.
  - pose proof (finish_closed st (get_tool_calls parser)) as F.
    cbv zeta in F. destruct F as (F1 & _).
    now rewrite F1, app_nil_r.
  - simpl. now rewrite app_nil_r.
Qed.

(** X3: the content list of the collected object is the text block, if
    the concatenated prose is not empty, followed by one tool-use block
    per inline call in order of discovery, numbered from 0 in the
    identifier; prose that arrives after a tool call still ends up in the
    one text block at the front. *)
Theorem collect_content_layout body model request_id parser records :
  decode new_parser body = Decoded parser records ->
  exists m,
    collect_anthropic_response body model request_id = inl m /\
    resp_id m = effective_request_id request_id /\
    resp_model m = model /\
    resp_content m =
      text_block_of (join (map plain_text records))
      ++ bracket_blocks 0 (inline_tool_calls records).
Proof.
  intros D. rewrite (collect_of_decoded _ _ _ D).
  eexists. split; [reflexivity|].
  pose proof (collect_events_closed records initial_collect_state) as C.
  cbv zeta in C. destruct C as (C1 & C2).
  simpl in C1, C2.
  unfold build_response. cbn [resp_id resp_model resp_content].
  rewrite C1, C2. unfold text_block_of.
  destruct (str_truthy (join (map plain_text records))); repeat split.
Qed.

(** Deltas and opened tool-use blocks of a stream whose body decodes to
    the end. *)
Lemma stream_deltas_and_tool_blocks body model request_id parser records :
  decode new_parser body = Decoded parser records ->
  let out := fst (stream_kiro_to_anthropic body model request_id) in
  deltas out =
    map (fun text => (0, text)) (filter str_truthy (map plain_text records)) /\
  opened_tool_blocks out =
    bracket_blocks 0 (inline_tool_calls records)
    ++ parser_blocks (List.length (inline_tool_calls records))
         (get_tool_calls parser).
Proof.
  intros D. cbv zeta. rewrite stream_frames, D.
  pose proof (handle_events_closed (effective_request_id request_id) model
                records initial_stream_state) as H.
  pose proof (handle_events_effect (effective_request_id request_id) model
                records initial_stream_state) as E.
  destruct (handle_events _ model initial_stream_state records) as [st out].
  cbn [fst snd] in H, E |- *.
  destruct H as (_ & H2 & H3 & _). destruct E as (E1 & _).
  pose proof (finish_closed st (get_tool_calls parser)) as F.
  cbv zeta in F. destruct F as (F1 & F2 & _).
  simpl in H3, E1.
  rewrite deltas_app, opened_tool_blocks_app, H2, H3, F1, F2, E1, app_nil_r.
  split; reflexivity.
Qed.

(** X4: the tool-use blocks a completed stream opens are, in order, one
    per inline call and then one per call the decoder reports, and the
    identifier of the k-th of them (from 0) has suffix k. *)
Theorem stream_tool_blocks_in_order body model request_id parser records :
  decode new_parser body = Decoded parser records ->
  snd (stream_kiro_to_anthropic body model request_id) = Completed ->
  let out := fst (stream_kiro_to_anthropic body model request_id) in
  opened_tool_blocks out =
    bracket_blocks 0 (inline_tool_calls records)
    ++ parser_blocks (List.length (inline_tool_calls records))
         (get_tool_calls parser) /\
  List.length
    (parser_blocks (List.length (inline_tool_calls records))
       (get_tool_calls parser)) = List.length (get_tool_calls parser) /\
  tool_suffixes (opened_tool_blocks out) =
    seq 0 (List.length (inline_tool_calls records)
           + List.length (get_tool_calls parser)).
Proof.
  intros D C. cbv zeta.
  rewrite (stream_outcome _ _ _ D) in C. apply outcome_of_completed in C.
  destruct (stream_deltas_and_tool_blocks _ model request_id D) as (_ & T).
  cbv zeta in T. rewrite T. split; [reflexivity|].
  split; [now apply parser_blocks_length|].
  rewrite tool_suffixes_app, tool_suffixes_bracket_blocks,
    tool_suffixes_parser_blocks, (parser_blocks_length _ _ C).
  now rewrite seq_app.
Qed.

(** X6: the chunking of the body does not matter: two bodies that decode
    to the same records, the decoder reporting the same tool calls at the
    end, give the same frames and the same collected object. *)
Theorem chunking_is_irrelevant
    body1 body2 model request_id parser1 parser2 records :
  decode new_parser body1 = Decoded parser1 records ->
  decode new_parser body2 = Decoded parser2 records ->
  get_tool_calls parser1 = get_tool_calls parser2 ->
  stream_kiro_to_anthropic body1 model request_id =
    stream_kiro_to_anthropic body2 model request_id /\
  collect_anthropic_response body1 model request_id =
    collect_anthropic_response body2 model request_id.
Proof.
  intros D1 D2 G.
  rewrite (stream_of_decoded _ _ _ D1), (stream_of_decoded _ _ _ D2), G.
  rewrite (collect_of_decoded _ _ _ D1), (collect_of_decoded _ _ _ D2).
  split; reflexivity.
Qed.

(** X7: when the transport or the decoder fails, the collector returns no
    object, whatever was decoded before: it raises the failure, the same
    one the emitter re-raises for that body. *)
Theorem failure_in_both_modes body model request_id records message :
  decode new_parser body = DecodeFailed records message ->
  collect_anthropic_response body model request_id = inr message /\
  snd (stream_kiro_to_anthropic body model request_id) = Raised message.
Proof.
  intros D. rewrite (stream_of_failed _ _ _ D).
  unfold collect_anthropic_response.
  rewrite collect_chunks_decode, D. split; reflexivity.
Qed.

Lemma stream_tool_pairs_atomic body model request_id :
  tool_pairs_atomic (fst (stream_kiro_to_anthropic body model request_id))
  = true.
Proof.
  rewrite stream_frames.
  destruct (decode new_parser body) as [parser records|records message];
    pose proof (handle_events_closed (effective_request_id request_id) model
                  records initial_stream_state) as H;
    destruct (handle_events _ model initial_stream_state records)
      as [st out];
    cbn [fst snd] in H |- *; destruct H as (_ & _ & _ & H4);
    rewrite H4.
  - pose proof (finish_closed st (get_tool_calls parser)) as F.
    cbv zeta in F. now destruct F as (_ & _ & _ & _ & F5).
  - reflexivity.
Qed.

(** X8: tool-use blocks are atomic: wherever a stream has a
    content_block_start of a tool-use block, the very next frame is the
    content_block_stop of the same index; this holds for inline and
    reported calls, and also in a stream that fails later. *)
Theorem tool_blocks_are_atomic_pairs
    body model request_id before k id name input rest :
  fst (stream_kiro_to_anthropic body model request_id) =
    before ++ ContentBlockStart k (ToolUse id name input) :: rest ->
  exists rest', rest = ContentBlockStop k :: rest'.
Proof.
  intros E.
  eapply (@tool_pairs_atomic_at (List.length before));
    [ | |exact E]; [lia|apply stream_tool_pairs_atomic].
Qed.


(** X10: frames already yielded are never taken back: if a body fails
    after some records, the frames before its error frame are also the
    first frames of any completed stream whose records begin with those
    records. *)
Theorem frames_before_failure_are_kept
    body1 body2 model request_id records more message parser :
  decode new_parser body1 = DecodeFailed records message ->
  decode new_parser body2 = Decoded parser (records ++ more) ->
  exists frames later,
    fst (stream_kiro_to_anthropic body1 model request_id) =
      frames ++ [ErrorEvent message] /\
    fst (stream_kiro_to_anthropic body2 model request_id) =
      frames ++ later.
Proof.
  intros D1 D2. rewrite !stream_frames, D1, D2.
  rewrite handle_events_app.
  destruct (handle_events _ model initial_stream_state records) as [st out].
  destruct (handle_events _ model st more) as [st1 out1].
  cbn [fst snd]. exists out. eexists. split; [reflexivity|].
  rewrite <- app_assoc. reflexivity.
Qed.

(** Every block opened in a stream whose body decodes to the end is
    closed, whether the stream completes or an exception leaves the
    conversion of the reported calls. *)
Lemma decoded_stream_is_balanced body model request_id parser records :
  decode new_parser body = Decoded parser records ->
  let out := fst (stream_kiro_to_anthropic body model request_id) in
  Permutation (block_start_indices out) (block_stop_indices out).
Proof.
  intros D. cbv zeta. rewrite stream_frames, D.
  pose proof (handle_events_balance (effective_request_id request_id) model
                records initial_stream_state) as B.
  destruct (handle_events _ model initial_stream_state records) as [st out].
  cbn [fst snd] in B |- *. simpl in B. rewrite app_nil_r in B.
  pose proof (finish_closed st (get_tool_calls parser)) as F.
  cbv zeta in F. destruct F as (_ & _ & _ & F4 & _).
  rewrite block_start_indices_app, block_stop_indices_app.
  eapply Permutation_trans; [apply Permutation_app_tail, B|].
  rewrite <- app_assoc. apply Permutation_app_head.
  eapply Permutation_trans; [apply Permutation_app_comm|exact F4].
Qed.

(** X11: in a completed stream every block that is opened is closed: the
    indices of the content_block_start frames and those of the
    content_block_stop frames are the same up to order. *)
Theorem opened_blocks_are_closed body model request_id parser records :
  decode new_parser body = Decoded parser records ->
  let out := fst (stream_kiro_to_anthropic body model request_id) in
  Permutation (block_start_indices out) (block_stop_indices out).
Proof. apply decoded_stream_is_balanced. Qed.

(** X12: which failure leaves the text block open. When reading the body
    or parser.feed fails, the text block is left open if prose was
    delivered before: the opened indices are the closed ones and one more
    0 (all are closed if no prose was delivered). When the body decodes to
    the end and an exception leaves the conversion of a reported call, the
    text block has been closed before: opened and closed indices are the
    same up to order, as in a completed stream. *)
Theorem text_block_left_open_by_read_failure_only body model request_id :
  let out := fst (stream_kiro_to_anthropic body model request_id) in
  Permutation (block_start_indices out)
    (block_stop_indices out
     ++ match decode new_parser body with
        | DecodeFailed records _ =>
            if str_truthy (join (map plain_text records)) then [0] else []
        | Decoded _ _ => []
        end).
Proof.
  cbv zeta.
  destruct (decode new_parser body) as [parser records|records message] eqn:D.
  - rewrite app_nil_r. apply (decoded_stream_is_balanced _ _ _ D).
  - rewrite stream_frames, D.
    pose proof (handle_events_balance (effective_request_id request_id)
                  model records initial_stream_state) as B.
    pose proof (handle_events_closed (effective_request_id request_id) model
                  records initial_stream_state) as H.
    destruct (handle_events _ model initial_stream_state records)
      as [st out].
    cbn [fst snd] in B, H |- *. destruct H as (H1 & _).
    simpl in B, H1. rewrite app_nil_r, H1 in B.
    rewrite block_start_indices_app, block_stop_indices_app.
    simpl. now rewrite !app_nil_r.
Qed.

Lemma decode_drop_empty_chunks body : forall parser,
  decode parser (drop_empty_chunks body) = decode parser body.
Proof.
  induction body as [|item rest IH]; intros parser; [reflexivity|].
  destruct item as [[|b chunk]|message]; simpl.
  - apply IH.
  - destruct (feed parser (b :: chunk)) as [parser1 events|m];
      [|reflexivity].
    fold (drop_empty_chunks rest). now rewrite IH.
  - reflexivity.
Qed.

(** X13: empty chunks are no-ops: removing them from the body changes
    neither the stream nor the collected object (the decoder is not fed
    with them). *)
Theorem empty_chunks_are_skipped body model request_id :
  stream_kiro_to_anthropic (drop_empty_chunks body) model request_id =
    stream_kiro_to_anthropic body model request_id /\
  collect_anthropic_response (drop_empty_chunks body) model request_id =
    collect_anthropic_response body model request_id.
Proof.
  unfold stream_kiro_to_anthropic, collect_anthropic_response.
  now rewrite !stream_chunks_decode, !collect_chunks_decode,
    decode_drop_empty_chunks.
Qed.

(** X14: the identifiers of the tool-use blocks of the collected object
    have the suffixes 0, 1, 2, .. in order, so no two blocks of one
    object share an identifier suffix, and the suffix counts tool calls
    only (the text block put in front does not shift it). *)
Theorem collected_tool_suffixes body model request_id parser records :
  decode new_parser body = Decoded parser records ->
  exists m,
    collect_anthropic_response body model request_id = inl m /\
    tool_suffixes (resp_content m) =
      seq 0 (List.length (inline_tool_calls records)) /\
    NoDup (tool_suffixes (resp_content m)).
Proof.
  intros D. rewrite (collect_of_decoded _ _ _ D).
  eexists. split; [reflexivity|].
  pose proof (collect_events_closed records initial_collect_state) as C.
  cbv zeta in C. destruct C as (C1 & C2). simpl in C1, C2.
  assert (tool_suffixes
            (resp_content
               (build_response (effective_request_id request_id) model
                  (collect_events initial_collect_state records))) =
          seq 0 (List.length (inline_tool_calls records))) as T.
  { unfold build_response. cbn [resp_content]. rewrite C2.
    destruct (str_truthy _); simpl; apply tool_suffixes_bracket_blocks. }
  rewrite T. split; [reflexivity|apply seq_NoDup].
Qed.

Lemma emit_bracket_calls_open_no_text tool_calls : forall st,
  filter is_text_start (snd (emit_bracket_calls tool_calls st)) = [].
Proof.
  induction tool_calls as [|tc rest IH]; intros st; simpl; [reflexivity|].
  match goal with
  | |- context [emit_bracket_calls rest ?s] =>
      specialize (IH s); destruct (emit_bracket_calls rest s) as [st2 out]
  end.
  exact IH.
Qed.

Lemma emit_parser_tool_calls_open_no_text parser_tool_calls : forall st,
  filter is_text_start
    (snd (fst (emit_parser_tool_calls parser_tool_calls st))) = [].
Proof.
  induction parser_tool_calls as [|tc rest IH]; intros st; simpl;
    [reflexivity|].
  step_drain IH rest tc; [|reflexivity].
  exact IH.
Qed.

Lemma handle_event_text_start request_id model st ev :
  filter is_text_start (snd (handle_event request_id model st ev)) =
  if negb (str_truthy (accumulated_text st)) && str_truthy (plain_text ev)
  then [ContentBlockStart 0 (TextBlock "")] else [].
Proof.
  destruct ev as [data|md|ty]; simpl.
  - pose proof (emit_message_start_state request_id model st) as M.
    assert (filter is_text_start
              (snd (emit_message_start request_id model st)) = []) as MF
      by (unfold emit_message_start; destruct (message_started st);
          reflexivity).
    destruct (emit_message_start request_id model st) as [st1 out1].
    cbn [fst snd] in M, MF. destruct M as (M1 & _).
    destruct (list_truthy (parse_bracket_tool_calls (get_or "" data))).
    + pose proof (emit_bracket_calls_open_no_text
                    (parse_bracket_tool_calls (get_or "" data)) st1) as C1.
      destruct (emit_bracket_calls _ st1) as [st2 out2].
      cbn [fst snd] in C1 |- *.
      rewrite filter_app, MF, C1. cbn [str_truthy].
      now rewrite andb_false_r.
    + unfold emit_text. rewrite <- M1.
      destruct (str_truthy (get_or "" data)).
      * destruct (str_truthy (accumulated_text st1)); cbn [fst snd];
          rewrite filter_app, MF; reflexivity.
      * cbn [fst snd]. rewrite filter_app, MF, andb_false_r. reflexivity.
  - destruct (read_usage md). simpl. now rewrite andb_false_r.
  - now rewrite andb_false_r.
Qed.

Lemma handle_events_text_start request_id model records : forall st,
  filter is_text_start (snd (handle_events request_id model st records)) =
  if negb (str_truthy (accumulated_text st))
     && str_truthy (join (map plain_text records))
  then [ContentBlockStart 0 (TextBlock "")] else [].
Proof.
  induction records as [|ev rest IH]; intros st; simpl.
  - now rewrite andb_false_r.
  - pose proof (handle_event_text_start request_id model st ev) as E.
    pose proof (handle_event_closed request_id model st ev) as C.
    destruct (handle_event request_id model st ev) as [st1 out1].
    specialize (IH st1).
    destruct (handle_events request_id model st1 rest) as [st2 out2].
    cbn [fst snd] in E, C, IH |- *. destruct C as (C1 & _).
    rewrite filter_app, E, IH, C1, !str_truthy_append.
    destruct (str_truthy (accumulated_text st)),
             (str_truthy (plain_text ev)),
             (str_truthy (join (map plain_text rest))); reflexivity.
Qed.

(** X15: a stream opens at most one text block: the content_block_start
    frames of text blocks are exactly one frame, at index 0 and with empty
    text, when some content record carries prose, and none otherwise;
    later prose, also after tool calls, goes into that block. This holds
    whether the stream completes or fails. *)
Theorem text_block_is_opened_once body model request_id :
  filter is_text_start (fst (stream_kiro_to_anthropic body model request_id))
  = if str_truthy
         (join (map plain_text (decoded_records (decode new_parser body))))
    then [ContentBlockStart 0 (TextBlock "")] else [].
Proof.
  rewrite stream_frames.
  destruct (decode new_parser body) as [parser records|records message];
    cbn [decoded_records];
    pose proof (handle_events_text_start (effective_request_id request_id)
                  model records initial_stream_state) as H;
    destruct (handle_events _ model initial_stream_state records)
      as [st out];
    cbn [fst snd] in H |- *; simpl in H;
    rewrite filter_app, H.
  - rewrite finish_shape. cbn [fst snd].
    pose proof (emit_parser_tool_calls_open_no_text
                  (get_tool_calls parser) st) as C2.
    destruct (emit_parser_tool_calls (get_tool_calls parser) st)
      as [[st1 tools] failure].
    cbn [fst snd] in C2 |- *.
    rewrite !filter_app, C2.
    destruct (drain_failure (get_tool_calls parser)),
             (str_truthy (accumulated_text st)); simpl;
      now rewrite app_nil_r.
  - simpl. now rewrite app_nil_r.
Qed.

End Translator.

(* ================================================================== *)
(** ** The two translations side by side *)

(** The blocks of the inline calls under two clocks differ in the clock
    readings only. *)
Lemma bracket_blocks_without_millis
    (time_ms1 time_ms2 : nat -> Z) (tool_calls : list bracket_call) :
  forall k,
  map without_millis (bracket_blocks time_ms1 k tool_calls) =
  map without_millis (bracket_blocks time_ms2 k tool_calls).
Proof.
  induction tool_calls as [|tc rest IH]; intros k; simpl;
    [reflexivity|now rewrite IH].
Qed.

(** X5: when the decoder reports no tool call at the end, the collected
    object is what the stream spells out, each translation running with
    its own clock and its own generated identifier: the content list is
    the text block of the concatenated deltas (if not empty) followed by
    the tool-use blocks the stream opens, with the same names, inputs and
    identifier suffixes (the clock reading inside an identifier is taken
    in each run and is left out of the comparison), and the stream's final
    message_delta carries the object's stop reason and output token
    count. *)
Theorem collect_agrees_with_stream
    {P : Type} {decoder : FrameDecoder P}
    (parse_bracket_tool_calls : string -> list bracket_call)
    (json_loads : string -> loads_result)
    (stream_time_ms collect_time_ms : nat -> Z)
    (stream_completion_id collect_completion_id : string)
    (body : list transport_item) (model : string)
    (request_id : option string) (parser : P) (records : list event) :
  decode new_parser body = Decoded parser records ->
  get_tool_calls parser = [] ->
  let out :=
    fst (stream_kiro_to_anthropic parse_bracket_tool_calls json_loads
           stream_time_ms stream_completion_id body model request_id) in
  exists m pre,
    collect_anthropic_response parse_bracket_tool_calls collect_time_ms
      collect_completion_id body model request_id = inl m /\
    map without_millis (resp_content m) =
      map without_millis
        (text_block_of (join (map snd (deltas out)))
         ++ opened_tool_blocks out) /\
    out = pre ++ [MessageDelta (resp_stop_reason m) (resp_output_tokens m);
                  MessageStop].
Proof.
  intros D G. cbv zeta.
  assert (snd (stream_kiro_to_anthropic parse_bracket_tool_calls json_loads
                 stream_time_ms stream_completion_id body model request_id)
          = Completed) as C
    by (rewrite (stream_outcome _ _ _ _ _ _ _ D), G; reflexivity).
  destruct (stream_closing_frames parse_bracket_tool_calls json_loads
              stream_time_ms stream_completion_id body model request_id D C)
    as (pre & S & _).
  destruct (stream_deltas_and_tool_blocks parse_bracket_tool_calls json_loads
              stream_time_ms stream_completion_id body model request_id D)
    as (T1 & T2).
  cbv zeta in T1, T2.
  rewrite G, orb_false_r in S. rewrite G in T2. simpl in T2.
  rewrite app_nil_r in T2.
  rewrite (collect_of_decoded parse_bracket_tool_calls collect_time_ms
             collect_completion_id body model request_id D).
  eexists. exists pre. split; [reflexivity|].
  pose proof (collect_events_closed parse_bracket_tool_calls collect_time_ms
                records (initial_collect_state)) as CC.
  pose proof (collect_events_effect parse_bracket_tool_calls collect_time_ms
                records (initial_collect_state)) as E.
  cbv zeta in CC, E. destruct CC as (C1 & C2). destruct E as (_ & E2 & E3).
  simpl in C1, C2, E3.
  unfold build_response.
  cbn [resp_content resp_stop_reason resp_output_tokens].
  split.
  - rewrite T1, T2, C1, C2, map_snd_indexed, join_filter_truthy.
    unfold text_block_of.
    destruct (str_truthy (join (map (plain_text parse_bracket_tool_calls)
                                  records)));
      cbn [map app without_millis];
      now rewrite (bracket_blocks_without_millis collect_time_ms
                     stream_time_ms).
  - rewrite S, E3.
    match goal with
    | |- context [c_output_tokens ?st] =>
        assert (c_output_tokens st =
                snd (c_input_tokens st, c_output_tokens st))
          as -> by reflexivity
    end.
    rewrite E2.
    destruct (last_metadata records); reflexivity.
Qed.

(* ================================================================== *)
(** ** Concrete runs *)

Lemma C2_hello_world_run :
  stream_kiro_to_anthropic (decoder := scripted_decoder hello_script)
    sample_extractor sample_json_loads sample_time_ms "c0ffee"
    hello_body "claude-sonnet" (Some "msg_1") =
  ([MessageStart "msg_1" "claude-sonnet";
    ContentBlockStart 0 (TextBlock "");
    ContentBlockDelta 0 "Hello ";
    ContentBlockDelta 0 "world";
    ContentBlockStop 0;
    MessageDelta "end_turn" 2%Z;
    MessageStop],
   Completed).
Proof.
  apply (C2_hello_world_frames (decoder := scripted_decoder hello_script)
           sample_extractor sample_json_loads sample_time_ms "c0ffee"
           hello_body "claude-sonnet" (Some "msg_1")
           (parser := drained hello_script));
    reflexivity.
Defined.

Lemma C5_mixed_run :
  exists pre,
    fst (stream_kiro_to_anthropic (decoder := scripted_decoder mixed_script)
           sample_extractor sample_json_loads sample_time_ms "c0ffee"
           [one_chunk] "claude-sonnet" None) =
    pre ++ [MessageDelta "tool_use" 0%Z; MessageStop] /\
    (forall f, In f pre -> closes_stream f = false).
Proof.
  apply (C5_stream_stop_reason (decoder := scripted_decoder mixed_script)
           sample_extractor sample_json_loads sample_time_ms "c0ffee"
           [one_chunk] "claude-sonnet" None
           (parser := drained mixed_script)
           (records := [Content (Some "Hi"); Content (Some sample_marker);
                        usage_record (Some 7%Z) None]));
    reflexivity.
Defined.

Lemma C7_failing_run :
  exists pre,
    stream_kiro_to_anthropic (decoder := scripted_decoder failing_script)
      sample_extractor sample_json_loads sample_time_ms "c0ffee"
      [one_chunk; one_chunk] "claude-sonnet" (Some "msg_1") =
    (pre ++ [ErrorEvent "boom"], Raised "boom") /\
    pre = [MessageStart "msg_1" "claude-sonnet";
           ContentBlockStart 0 (TextBlock "");
           ContentBlockDelta 0 "Hi"] /\
    (forall f, In f pre -> closes_stream f = false).
Proof.
  apply (C7_error_frame_then_raise
           (decoder := scripted_decoder failing_script)
           sample_extractor sample_json_loads sample_time_ms "c0ffee"
           [one_chunk; one_chunk] "claude-sonnet" (Some "msg_1")
           (records := [Content (Some "Hi")])).
  reflexivity.
Defined.

Lemma C8_deep_text_run :
  let r := stream_kiro_to_anthropic (decoder := scripted_decoder deep_script)
             sample_extractor sample_json_loads sample_time_ms "c0ffee"
             [one_chunk] "claude-sonnet" (Some "msg_1") in
  snd r = Raised "maximum recursion depth exceeded" /\
  (exists pre,
     fst r = pre ++ [ErrorEvent "maximum recursion depth exceeded"] /\
     forall f, In f pre -> closes_stream f = false) /\
  List.length (tool_start_indices (fst r)) = 1.
Proof.
  apply (C8_uncaught_loads_error_raises
           (decoder := scripted_decoder deep_script)
           sample_extractor sample_json_loads sample_time_ms "c0ffee"
           [one_chunk] "claude-sonnet" (Some "msg_1")
           (parser := drained deep_script)
           (records := [Content (Some "Hi")])
           [well_formed_tool_call] deep_tool_call [mapping_tool_call]
           (fn := mk_function_call (Some "crawl") (Some (JStr deep_text)))
           (s := deep_text));
    reflexivity.
Defined.

Lemma C9_marker_run :
  (forall st,
     let r := handle_event sample_extractor sample_time_ms "msg_1"
                "claude-sonnet" st (Content (Some sample_marker)) in
     accumulated_text (fst r) = accumulated_text st /\
     forall f, In f (snd r) -> is_delta_frame f = false) /\
  (forall st,
     c_accumulated_text
       (collect_event sample_extractor sample_time_ms st
          (Content (Some sample_marker))) =
     c_accumulated_text st).
Proof.
  apply (C9_marker_record_adds_no_text sample_extractor sample_time_ms
           "msg_1" "claude-sonnet" (Some sample_marker)).
  discriminate.
Defined.

Lemma C6_mixed_collect :
  exists m,
    collect_anthropic_response (decoder := scripted_decoder mixed_script)
      sample_extractor sample_time_ms "c0ffee" [one_chunk] "claude-sonnet"
      None = inl m /\
    resp_stop_reason m =
      (if existsb is_tool_use (resp_content m)
       then "tool_use" else "end_turn") /\
    (resp_stop_reason m = "tool_use" <->
     exists id name input, In (ToolUse id name input) (resp_content m)).
Proof.
  apply (C6_collect_stop_reason (decoder := scripted_decoder mixed_script)
           sample_extractor sample_time_ms "c0ffee" [one_chunk]
           "claude-sonnet" None
           (parser := drained mixed_script)
           (records := [Content (Some "Hi"); Content (Some sample_marker);
                        usage_record (Some 7%Z) None])).
  reflexivity.
Defined.


Lemma C4_quiet_run :
  stream_kiro_to_anthropic (decoder := scripted_decoder quiet_script)
    sample_extractor sample_json_loads sample_time_ms "c0ffee"
    [one_chunk] "claude-sonnet" (Some "msg_1") =
  ([MessageStart "msg_1" "claude-sonnet";
    MessageDelta "end_turn" 7%Z;
    MessageStop],
   Completed).
Proof.
  apply (C4_three_frames_after_content
           (decoder := scripted_decoder quiet_script)
           sample_extractor sample_json_loads sample_time_ms "c0ffee"
           [one_chunk] "claude-sonnet" (Some "msg_1")
           (parser := drained quiet_script)
           (records := [Content None; usage_record (Some 3%Z) (Some 7%Z)])).
  - reflexivity.
  - intros data [H|[H|[]]]; [|discriminate]. now inversion H.
  - reflexivity.
  - reflexivity.
  - exists None. now left.
Defined.

Lemma C4_metadata_only_run :
  let r := stream_kiro_to_anthropic
             (decoder := scripted_decoder metadata_only_script)
             sample_extractor sample_json_loads sample_time_ms "c0ffee"
             [one_chunk] "claude-sonnet" (Some "msg_1") in
  r = ([MessageDelta "end_turn" 7%Z; MessageStop], Completed) /\
  ~ (exists id model' reason tokens,
       fst r = [MessageStart id model'; MessageDelta reason tokens;
                MessageStop]).
Proof.
  apply (C4_no_content_record_no_message_start
           (decoder := scripted_decoder metadata_only_script)
           sample_extractor sample_json_loads sample_time_ms "c0ffee"
           [one_chunk] "claude-sonnet" (Some "msg_1")
           (parser := drained metadata_only_script)
           (records := [usage_record (Some 3%Z) (Some 7%Z)]));
    reflexivity.
Defined.

Lemma C1_text_then_tool_run :
  let r := stream_kiro_to_anthropic
             (decoder := scripted_decoder text_tool_script)
             sample_extractor sample_json_loads sample_time_ms "c0ffee"
             [one_chunk] "claude-sonnet" (Some "msg_1") in
  r = ([MessageStart "msg_1" "claude-sonnet";
        ContentBlockStart 0 (TextBlock "");
        ContentBlockDelta 0 "Hi";
        ContentBlockStart 0
          (ToolUse (mk_tool_use_id 1700000000000%Z 0) "search" (JDict []));
        ContentBlockStop 0;
        ContentBlockStop 0;
        MessageDelta "tool_use" 0%Z;
        MessageStop],
       Completed) /\
  block_start_indices (fst r) = [0; 0] /\
  ~ NoDup (block_start_indices (fst r)).
Proof.
  apply (C1_inline_tool_reuses_text_index
           (decoder := scripted_decoder text_tool_script)
           sample_extractor sample_json_loads sample_time_ms "c0ffee"
           [one_chunk] "claude-sonnet" (Some "msg_1")
           (parser := drained text_tool_script)
           (text := "Hi") (marked := sample_marker)
           (tc := mk_bracket_call (Some "search") (Some (JDict []))));
    reflexivity.
Defined.

Lemma C3_mixed_collect_is_short :
  exists m,
    collect_anthropic_response (decoder := scripted_decoder mixed_script)
      sample_extractor sample_time_ms "c0ffee" [one_chunk] "claude-sonnet"
      None = inl m /\
    count_tool_use (resp_content m) = 1 /\
    List.length
      (tool_start_indices
         (fst (stream_kiro_to_anthropic
                 (decoder := scripted_decoder mixed_script)
                 sample_extractor sample_json_loads sample_time_ms "c0ffee"
                 [one_chunk] "claude-sonnet" None))) = 2 /\
    count_tool_use (resp_content m) <
    List.length
      (tool_start_indices
         (fst (stream_kiro_to_anthropic
                 (decoder := scripted_decoder mixed_script)
                 sample_extractor sample_json_loads sample_time_ms "c0ffee"
                 [one_chunk] "claude-sonnet" None))).
Proof.
  apply (C3_collector_omits_reported_tool_calls
           (decoder := scripted_decoder mixed_script)
           sample_extractor sample_json_loads sample_time_ms "c0ffee"
           [one_chunk] "claude-sonnet" None
           (parser := drained mixed_script)
           (records := [Content (Some "Hi"); Content (Some sample_marker);
                        usage_record (Some 7%Z) None])
           (tool_call := malformed_tool_call) (rest := []));
    reflexivity.
Defined.

(* ================================================================== *)
(** ** Concrete runs of the further properties *)

Lemma collect_content_layout_run :
  exists m,
    collect_anthropic_response (decoder := scripted_decoder mixed_script)
      sample_extractor sample_time_ms "c0ffee" [one_chunk] "claude-sonnet"
      (Some "msg_1") = inl m /\
    resp_id m = "msg_1" /\
    resp_model m = "claude-sonnet" /\
    resp_content m =
      [TextBlock "Hi";
       ToolUse (mk_tool_use_id 1700000000000%Z 0) "search" (JDict [])].
Proof.
  apply (collect_content_layout (decoder := scripted_decoder mixed_script)
           sample_extractor sample_time_ms "c0ffee" [one_chunk]
           "claude-sonnet" (Some "msg_1")
           (parser := drained mixed_script)
           (records := [Content (Some "Hi"); Content (Some sample_marker);
                        usage_record (Some 7%Z) None])).
  reflexivity.
Defined.

Lemma stream_tool_blocks_in_order_run :
  let out :=
    fst (stream_kiro_to_anthropic (decoder := scripted_decoder mixed_script)
           sample_extractor sample_json_loads sample_time_ms "c0ffee"
           [one_chunk] "claude-sonnet" (Some "msg_1")) in
  opened_tool_blocks out =
    [ToolUse (mk_tool_use_id 1700000000000%Z 0) "search" (JDict []);
     ToolUse (mk_tool_use_id 1700000000001%Z 1) "lookup" (JDict [])] /\
  List.length
    (parser_blocks sample_json_loads sample_time_ms 1 [malformed_tool_call])
    = 1 /\
  tool_suffixes (opened_tool_blocks out) = [0; 1].
Proof.
  apply (stream_tool_blocks_in_order
           (decoder := scripted_decoder mixed_script)
           sample_extractor sample_json_loads sample_time_ms "c0ffee"
           [one_chunk] "claude-sonnet" (Some "msg_1")
           (parser := drained mixed_script)
           (records := [Content (Some "Hi"); Content (Some sample_marker);
                        usage_record (Some 7%Z) None]));
    reflexivity.
Defined.

Lemma collect_agrees_with_stream_run :
  let out :=
    fst (stream_kiro_to_anthropic
           (decoder := scripted_decoder text_tool_script)
           sample_extractor sample_json_loads sample_time_ms "c0ffee"
           [one_chunk] "claude-sonnet" None) in
  exists m pre,
    collect_anthropic_response (decoder := scripted_decoder text_tool_script)
      sample_extractor later_time_ms "decaf" [one_chunk] "claude-sonnet"
      None = inl m /\
    map without_millis (resp_content m) =
      map without_millis
        (text_block_of (join (map snd (deltas out)))
         ++ opened_tool_blocks out) /\
    out = pre ++ [MessageDelta (resp_stop_reason m) (resp_output_tokens m);
                  MessageStop].
Proof.
  apply (collect_agrees_with_stream
           (decoder := scripted_decoder text_tool_script)
           sample_extractor sample_json_loads sample_time_ms later_time_ms
           "c0ffee" "decaf" [one_chunk] "claude-sonnet" None
           (parser := drained text_tool_script)
           (records := [Content (Some "Hi"); Content (Some sample_marker)]));
    reflexivity.
Defined.

Lemma chunking_is_irrelevant_run :
  stream_kiro_to_anthropic (decoder := scripted_decoder hello_script)
    sample_extractor sample_json_loads sample_time_ms "c0ffee"
    hello_body "claude-sonnet" (Some "msg_1") =
  stream_kiro_to_anthropic (decoder := scripted_decoder hello_script)
    sample_extractor sample_json_loads sample_time_ms "c0ffee"
    [Bytes []; one_chunk; one_chunk; Bytes []] "claude-sonnet"
    (Some "msg_1") /\
  collect_anthropic_response (decoder := scripted_decoder hello_script)
    sample_extractor sample_time_ms "c0ffee"
    hello_body "claude-sonnet" (Some "msg_1") =
  collect_anthropic_response (decoder := scripted_decoder hello_script)
    sample_extractor sample_time_ms "c0ffee"
    [Bytes []; one_chunk; one_chunk; Bytes []] "claude-sonnet"
    (Some "msg_1").
Proof.
  apply (chunking_is_irrelevant (decoder := scripted_decoder hello_script)
           sample_extractor sample_json_loads sample_time_ms "c0ffee"
           hello_body [Bytes []; one_chunk; one_chunk; Bytes []]
           "claude-sonnet" (Some "msg_1")
           (parser1 := drained hello_script)
           (parser2 := drained hello_script)
           (records := [Content (Some "Hello "); Content (Some "world");
                        usage_record (Some 5%Z) (Some 2%Z)]));
    reflexivity.
Defined.

Lemma failure_in_both_modes_run :
  collect_anthropic_response (decoder := scripted_decoder failing_script)
    sample_extractor sample_time_ms "c0ffee" [one_chunk; one_chunk]
    "claude-sonnet" (Some "msg_1") = inr "boom" /\
  snd (stream_kiro_to_anthropic (decoder := scripted_decoder failing_script)
         sample_extractor sample_json_loads sample_time_ms "c0ffee"
         [one_chunk; one_chunk] "claude-sonnet" (Some "msg_1")) =
  Raised "boom".
Proof.
  apply (failure_in_both_modes (decoder := scripted_decoder failing_script)
           sample_extractor sample_json_loads sample_time_ms "c0ffee"
           [one_chunk; one_chunk] "claude-sonnet" (Some "msg_1")
           (records := [Content (Some "Hi")])).
  reflexivity.
Defined.

Lemma tool_blocks_are_atomic_pairs_run :
  exists rest',
    [ContentBlockStop 0;
     ContentBlockStop 0;
     ContentBlockStart 2
       (ToolUse (mk_tool_use_id 1700000000001%Z 1) "lookup" (JDict []));
     ContentBlockStop 2;
     MessageDelta "tool_use" 0%Z;
     MessageStop] = ContentBlockStop 0 :: rest'.
Proof.
  apply (tool_blocks_are_atomic_pairs
           (decoder := scripted_decoder mixed_script)
           sample_extractor sample_json_loads sample_time_ms "c0ffee"
           [one_chunk] "claude-sonnet" (Some "msg_1")
           [MessageStart "msg_1" "claude-sonnet";
            ContentBlockStart 0 (TextBlock "");
            ContentBlockDelta 0 "Hi"]
           0 (mk_tool_use_id 1700000000000%Z 0) "search" (JDict [])
           [ContentBlockStop 0;
            ContentBlockStop 0;
            ContentBlockStart 2
              (ToolUse (mk_tool_use_id 1700000000001%Z 1) "lookup"
                 (JDict []));
            ContentBlockStop 2;
            MessageDelta "tool_use" 0%Z;
            MessageStop]).
  reflexivity.
Defined.


Lemma frames_before_failure_are_kept_run :
  exists frames later,
    fst (stream_kiro_to_anthropic
           (decoder := scripted_decoder two_part_script)
           sample_extractor sample_json_loads sample_time_ms "c0ffee"
           [one_chunk; TransportError "reset"] "claude-sonnet"
           (Some "msg_1")) =
      frames ++ [ErrorEvent "reset"] /\
    fst (stream_kiro_to_anthropic
           (decoder := scripted_decoder two_part_script)
           sample_extractor sample_json_loads sample_time_ms "c0ffee"
           [one_chunk; one_chunk] "claude-sonnet" (Some "msg_1")) =
      frames ++ later.
Proof.
  apply (frames_before_failure_are_kept
           (decoder := scripted_decoder two_part_script)
           sample_extractor sample_json_loads sample_time_ms "c0ffee"
           [one_chunk; TransportError "reset"] [one_chunk; one_chunk]
           "claude-sonnet" (Some "msg_1")
           (records := [Content (Some "Hi")]) [Content (Some " there")]
           (parser := drained two_part_script));
    reflexivity.
Defined.

Lemma opened_blocks_are_closed_run :
  let out :=
    fst (stream_kiro_to_anthropic (decoder := scripted_decoder mixed_script)
           sample_extractor sample_json_loads sample_time_ms "c0ffee"
           [one_chunk] "claude-sonnet" (Some "msg_1")) in
  Permutation (block_start_indices out) (block_stop_indices out).
Proof.
  apply (opened_blocks_are_closed (decoder := scripted_decoder mixed_script)
           sample_extractor sample_json_loads sample_time_ms "c0ffee"
           [one_chunk] "claude-sonnet" (Some "msg_1")
           (parser := drained mixed_script)
           (records := [Content (Some "Hi"); Content (Some sample_marker);
                        usage_record (Some 7%Z) None])).
  reflexivity.
Defined.

Lemma collected_tool_suffixes_run :
  exists m,
    collect_anthropic_response (decoder := scripted_decoder mixed_script)
      sample_extractor sample_time_ms "c0ffee" [one_chunk] "claude-sonnet"
      (Some "msg_1") = inl m /\
    tool_suffixes (resp_content m) = [0] /\
    NoDup (tool_suffixes (resp_content m)).
Proof.
  apply (collected_tool_suffixes (decoder := scripted_decoder mixed_script)
           sample_extractor sample_time_ms "c0ffee" [one_chunk]
           "claude-sonnet" (Some "msg_1")
           (parser := drained mixed_script)
           (records := [Content (Some "Hi"); Content (Some sample_marker);
                        usage_record (Some 7%Z) None])).
  reflexivity.
Defined.
